(** * Logistic classification utilities: a shallow embedding

    This development embeds the functions of [utility_functions.py]
    (train/test split, feature scaling, logistic hypothesis, gradient,
    gradient descent, prediction, confusion matrix and performance
    metrics) and proves properties of them.

    Numbers are modelled as the code has them: Python [int] is [Z],
    Python [float] and NumPy [float64] are IEEE-754 binary64 values,
    taken from the specification of floating-point arithmetic in
    [SpecFloat] with [prec = 53] and [emax = 1024] (round to nearest,
    ties to even).  Python exceptions are values of an error monad.

    NumPy arrays keep their shape: a vector of shape [(n,)] and a
    column of shape [(n, 1)] are different arrays, and element-wise
    operations broadcast as NumPy does.  The element-wise operations
    are the correctly rounded ones of binary64.  The routines whose
    rounding NumPy leaves open (matrix products, sums of many entries,
    the exponential) are parameters of the model, collected in the
    record [numpy]; a property that needs a fact about them states it
    as a hypothesis, and the concrete runs use one admissible choice,
    [in_order]. *)

From Stdlib Require Import ZArith List Bool Lia SpecFloat.
From Stdlib Require Import Permutation.
Import ListNotations.

Open Scope Z_scope.

(** ** IEEE-754 binary64 *)

Module B64.

Definition prec : Z := 53.
Definition emax : Z := 1024.

Definition float : Type := spec_float.

Definition add : float -> float -> float := SFadd prec emax.
Definition sub : float -> float -> float := SFsub prec emax.
Definition mul : float -> float -> float := SFmul prec emax.
Definition div : float -> float -> float := SFdiv prec emax.
Definition sqrt : float -> float := SFsqrt prec emax.

Definition eqb : float -> float -> bool := SFeqb.
Definition ltb : float -> float -> bool := SFltb.
Definition leb : float -> float -> bool := SFleb.

(** Conversion of an integer, correctly rounded ([float(z)]). *)
Definition of_Z (z : Z) : float := binary_normalize prec emax z 0 false.

Definition zero : float := S754_zero false.
Definition one : float := Eval vm_compute in of_Z 1.
Definition two : float := Eval vm_compute in of_Z 2.
Definition minus_one : float := Eval vm_compute in of_Z (-1).
Definition half : float := Eval vm_compute in div (of_Z 1) (of_Z 2).
Definition infinity : float := S754_infinity false.
Definition nan : float := S754_nan.

(** A finite value: neither an infinity nor a NaN. *)
Definition is_finite (f : float) : bool :=
  match f with
  | S754_zero _ | S754_finite _ _ _ => true
  | S754_infinity _ | S754_nan => false
  end.

(** A zero of either sign. *)
Definition is_zero (f : float) : bool :=
  match f with
  | S754_zero _ => true
  | _ => false
  end.

(** [math.floor] on a finite value; [None] on infinities and NaN,
    where Python raises. *)
Definition floor (f : float) : option Z :=
  match f with
  | S754_zero _ => Some 0
  | S754_finite s m e => Some (Z.shiftl (cond_Zopp s (Zpos m)) e)
  | S754_infinity _ | S754_nan => None
  end.

End B64.

Definition float : Type := B64.float.

(** ** Python exceptions and the error monad *)

Inductive exn : Type :=
| ZeroDivisionError
| IndexError
| ValueError
| TypeError
| OverflowError.

Inductive res (A : Type) : Type :=
| Ok (a : A)
| Raise (e : exn).

Arguments Ok {A} a.
Arguments Raise {A} e.

Definition bind {A B : Type} (c : res A) (k : A -> res B) : res B :=
  match c with
  | Ok a => k a
  | Raise e => Raise e
  end.

Notation "x <- c ;; k" := (bind c (fun x => k))
  (at level 61, c at next level, right associativity).

(** [for i in idx: acc = body(i, acc)], stopping at the first exception. *)
Fixpoint for_each {I A : Type} (body : I -> A -> res A) (idx : list I) (acc : A)
  : res A :=
  match idx with
  | [] => Ok acc
  | i :: idx' => acc' <- body i acc ;; for_each body idx' acc'
  end.

(** [range(n)] *)
Definition range (n : nat) : list nat := seq 0 n.

(** Indexing [l[i]] with a non-negative index. *)
Definition get {A : Type} (l : list A) (i : nat) : res A :=
  match nth_error l i with
  | Some v => Ok v
  | None => Raise IndexError
  end.

(** [a and b] with Python's short circuit: [b] is evaluated only when
    [a] is true. *)
Definition and_then (a b : res bool) : res bool :=
  x <- a ;; if x then b else Ok false.

(** ** Python numbers *)

(** A value held by a list or array of numbers: a Python [int] or a
    [float] / [numpy.float64]. *)
Inductive num : Type :=
| Int (z : Z)
| Float (f : float).

(** [v == k] for an integer literal [k]. *)
Definition num_eqb (v : num) (k : Z) : bool :=
  match v with
  | Int z => Z.eqb z k
  | Float f => B64.eqb f (B64.of_Z k)
  end.

(** Python's [a / b] on two [int]s: a [float], or [ZeroDivisionError].
    The quotient of the converted operands is the correctly rounded
    quotient whenever both fit in 53 bits, which counters of list
    positions do. *)
Definition int_truediv (a b : Z) : res float :=
  if Z.eqb b 0 then Raise ZeroDivisionError
  else Ok (B64.div (B64.of_Z a) (B64.of_Z b)).

(** Python's [a / b] on two [float]s. *)
Definition float_truediv (a b : float) : res float :=
  if B64.eqb b B64.zero then Raise ZeroDivisionError
  else Ok (B64.div a b).

(** ** Evaluator: confusion matrix *)

(** [matrix[k] += 1] *)
Fixpoint incr (matrix : list Z) (k : nat) : res (list Z) :=
  match matrix, k with
  | [], _ => Raise IndexError
  | c :: rest, O => Ok (c + 1 :: rest)
  | c :: rest, S k' => rest' <- incr rest k' ;; Ok (c :: rest')
  end.

(** One turn of the loop of [get_confusion_matrix]. *)
Definition confusion_step (predictions y : list num) (i : nat)
  (matrix : list Z) : res (list Z) :=
  let p_is k := (p <- get predictions i ;; Ok (num_eqb p k)) in
  let y_is k := (v <- get y i ;; Ok (num_eqb v k)) in
  c1 <- and_then (p_is 1) (y_is 1) ;;
  if c1 then incr matrix 0 (* true positive *)
  else
    c2 <- and_then (p_is 0) (y_is 0) ;;
    if c2 then incr matrix 1 (* true negative *)
    else
      c3 <- and_then (p_is 1) (y_is 0) ;;
      if c3 then incr matrix 2 (* false positive *)
      else
        c4 <- and_then (p_is 0) (y_is 1) ;;
        if c4 then incr matrix 3 (* false negative *)
        else Ok matrix.

Definition get_confusion_matrix (predictions y : list num) : res (list Z) :=
  for_each (confusion_step predictions y) (range (length predictions))
    [0; 0; 0; 0].

(** ** Evaluator: performance metrics *)

(** The five values [print_performance_metrics] prints. *)
Record metrics : Type := Metrics {
  accuracy : float;
  precision : float;
  recall : float;
  specificity : float;
  f1 : float
}.

Definition print_performance_metrics (m : list Z) : res metrics :=
  m0 <- get m 0 ;; m1 <- get m 1 ;; m2 <- get m 2 ;; m3 <- get m 3 ;;
  accuracy <- int_truediv (m0 + m1) (m0 + m1 + m2 + m3) ;;
  precision <- int_truediv m0 (m0 + m2) ;;
  recall <- int_truediv m0 (m0 + m3) ;;
  specificity <- int_truediv m1 (m1 + m2) ;;
  q <- float_truediv (B64.mul precision recall) (B64.add precision recall) ;;
  Ok (Metrics accuracy precision recall specificity (B64.mul B64.two q)).

(** ** NumPy arrays

    A one-dimensional array, of shape [(n,)], is the list of its
    entries.  A two-dimensional array, of shape [(r, c)], is the list of
    its [r] rows, each of length [c]. *)

Definition vector : Type := list float.
Definition matrix : Type := list vector.

Definition ncols (x : matrix) : nat :=
  match x with
  | [] => O
  | r :: _ => length r
  end.

Definition rectangular (x : matrix) : bool :=
  forallb (fun r => Nat.eqb (length r) (ncols x)) x.

(** A two-dimensional array together with the number of its columns,
    which the rows do not tell when there is none. *)
Record array2 : Type := Array2 { columns : nat; rows : matrix }.

Definition well_shaped (a : array2) : bool :=
  forallb (fun r => Nat.eqb (length r) (columns a)) (rows a).

(** The arrays the functions pass around: of one or of two dimensions.
    The two are kept apart, since NumPy treats a vector of shape [(n,)]
    and a column of shape [(n, 1)] differently. *)
Inductive ndarray : Type :=
| A1 (v : vector)
| A2 (a : array2).

(** [len(a)] *)
Definition len (a : ndarray) : nat :=
  match a with
  | A1 v => length v
  | A2 a => length (rows a)
  end.

(** An operation applied to every entry, as in [a * -1], [1 + a],
    [a ** 2] or [a / n]. *)
Definition amap (f : float -> float) (a : ndarray) : ndarray :=
  match a with
  | A1 v => A1 (map f v)
  | A2 a => A2 (Array2 (columns a) (map (map f) (rows a)))
  end.

(** [x.T] *)
Definition transpose (x : array2) : array2 :=
  Array2 (length (rows x))
    (map (fun j => map (fun r => nth j r B64.nan) (rows x))
       (seq 0 (columns x))).

(** [np.hstack((np.ones((len(x), 1)), x))]: a one-dimensional [x] cannot
    be joined to the column of ones. *)
Definition hstack_ones (x : ndarray) : res array2 :=
  match x with
  | A1 _ => Raise ValueError
  | A2 a => Ok (Array2 (S (columns a)) (map (cons B64.one) (rows a)))
  end.

(** *** Broadcasting *)

(** The length of an axis of the result of an element-wise operation on
    axes of lengths [d1] and [d2]: the lengths agree, or one of them is
    1 and is stretched to the other. *)
Definition bdim (d1 d2 : nat) : option nat :=
  if Nat.eqb d1 d2 then Some d1
  else if Nat.eqb d1 1 then Some d2
  else if Nat.eqb d2 1 then Some d1
  else None.

(** The position read on an axis of length [d] for the position [i] of
    the result. *)
Definition pick (d i : nat) : nat := if Nat.eqb d 1 then O else i.

Definition at2 (m : matrix) (i j : nat) : float :=
  nth j (nth i m []) B64.nan.

Definition broadcast2d (op : float -> float -> float) (a b : array2)
  : res array2 :=
  match bdim (length (rows a)) (length (rows b)),
        bdim (columns a) (columns b) with
  | Some r, Some c =>
      Ok (Array2 c
            (map (fun i =>
                    map (fun j =>
                           op (at2 (rows a) (pick (length (rows a)) i)
                                 (pick (columns a) j))
                              (at2 (rows b) (pick (length (rows b)) i)
                                 (pick (columns b) j)))
                      (range c))
               (range r)))
  | _, _ => Raise ValueError
  end.

(** A vector of shape [(n,)] taking part in an operation with a
    two-dimensional array counts as one row, of shape [(1, n)]. *)
Definition row_of (v : vector) : array2 := Array2 (length v) [v].

(** An element-wise binary operation, [np.subtract(a, b)] or [a - b]. *)
Definition broadcast (op : float -> float -> float) (a b : ndarray)
  : res ndarray :=
  match a, b with
  | A1 u, A1 v =>
      r <- broadcast2d op (row_of u) (row_of v) ;; Ok (A1 (nth 0 (rows r) []))
  | A1 u, A2 b => r <- broadcast2d op (row_of u) b ;; Ok (A2 r)
  | A2 a, A1 v => r <- broadcast2d op a (row_of v) ;; Ok (A2 r)
  | A2 a, A2 b => r <- broadcast2d op a b ;; Ok (A2 r)
  end.

Definition np_subtract : ndarray -> ndarray -> res ndarray :=
  broadcast B64.sub.

(** *** Routines whose rounding NumPy does not fix

    The entries of a matrix product and the sums of the entries of an
    array are accumulated in an order, and with fused or separate
    multiplications, that depend on the NumPy build, the BLAS library
    behind it and the memory layout of the operands; [np.exp] is
    accurate to the last bits only.  The code is modelled over any
    choice of these routines. *)
Record numpy : Type := NumPy {
  (** [np.exp] on one [float64] *)
  np_exp : float -> float;
  (** entry [i] of [np.matmul(x, v)] for a two-dimensional [x] and a
      one-dimensional [v] *)
  matmul_vec : matrix -> vector -> nat -> float;
  (** entry [(i, j)] of [np.matmul(x, m)] for two-dimensional [x], [m] *)
  matmul_mat : matrix -> matrix -> nat -> nat -> float;
  (** [np.sum(a)], the sum of all the entries *)
  np_sum : ndarray -> float;
  (** the sum of column [j], as [np.mean] and [np.std] take it along
      [axis=0] *)
  sum_axis0 : matrix -> nat -> float;
  (** the truth value of an array with no entry, which older NumPy
      takes as false and newer NumPy refuses *)
  empty_truth : res bool
}.

(** [np.matmul(x, b)] for a two-dimensional [x]. *)
Definition matmul (np : numpy) (x : array2) (b : ndarray) : res ndarray :=
  match b with
  | A1 v =>
      if Nat.eqb (columns x) (length v)
      then Ok (A1 (map (matmul_vec np (rows x) v) (range (length (rows x)))))
      else Raise ValueError
  | A2 m =>
      if Nat.eqb (columns x) (length (rows m))
      then Ok (A2 (Array2 (columns m)
                     (map (fun i =>
                             map (matmul_mat np (rows x) (rows m) i)
                               (range (columns m)))
                        (range (length (rows x))))))
      else Raise ValueError
  end.

(** Python slices [l[:k]] and [l[k:]]; a negative [k] counts from the
    end. *)
Definition slice_to {A : Type} (k : Z) (l : list A) : list A :=
  if Z.ltb k 0 then firstn (Z.to_nat (Z.of_nat (length l) + k)) l
  else firstn (Z.to_nat k) l.

Definition slice_from {A : Type} (k : Z) (l : list A) : list A :=
  if Z.ltb k 0 then skipn (Z.to_nat (Z.of_nat (length l) + k)) l
  else skipn (Z.to_nat k) l.

(** ** Data loading and the train/test split *)

(** [math.floor] *)
Definition math_floor (f : float) : res Z :=
  match B64.floor f with
  | Some z => Ok z
  | None =>
      match f with
      | S754_nan => Raise ValueError
      | _ => Raise OverflowError
      end
  end.

(** [split / 100] for an [int] or a [float] percentage. *)
Definition percent (split : num) : res float :=
  match split with
  | Int z => int_truediv z 100
  | Float f => float_truediv f (B64.of_Z 100)
  end.

(** [math.floor(len(data) * (split / 100))] *)
Definition splitting_point (n : nat) (split : num) : res Z :=
  f <- percent split ;;
  math_floor (B64.mul (B64.of_Z (Z.of_nat n)) f).

(** What [np.genfromtxt] hands back.  It drops every axis of length
    one: a file with several data rows and several columns is read as a
    two-dimensional array, a file with a single data row, or with a
    single column, as a one-dimensional array, and a single number as an
    array of no dimension. *)
Inductive table : Type :=
| Scalar (v : float)
| Line (v : vector)
| Rows (m : matrix).

(** [len(t)]: an array of no dimension has no length. *)
Definition table_len (t : table) : res nat :=
  match t with
  | Scalar _ => Raise TypeError
  | Line v => Ok (length v)
  | Rows m => Ok (length m)
  end.

Inductive loaded : Type :=
| Split (x_training_data y_training_data x_testing_data y_testing_data : matrix)
| Whole (data : table).

Section Loader.

(** [np.random.shuffle], which reorders the rows of a two-dimensional
    array and the entries of a one-dimensional one. *)
Variable shuffle : matrix -> matrix.
Variable shuffle_line : vector -> vector.

Definition np_random_shuffle (data : table) : res table :=
  match data with
  | Scalar _ => Raise TypeError
  | Line v => Ok (Line (shuffle_line v))
  | Rows m => Ok (Rows (shuffle m))
  end.

(** [headers] and [data] are what [np.genfromtxt] read from the file. *)
Definition load_data (headers data : table)
  (includes_y : bool) (split : num) (flag : bool) : res loaded :=
  data <- np_random_shuffle data ;;
  if includes_y then
    n_headers <- table_len headers ;;
    let number_x_columns := Z.of_nat n_headers - 1 in
    n_data <- table_len data ;;
    splitting_point <- splitting_point n_data split ;;
    match data with
    | Rows data =>
        let x_training_data :=
          map (slice_to number_x_columns) (slice_to splitting_point data) in
        let y_training_data :=
          map (slice_from number_x_columns) (slice_to splitting_point data) in
        let x_testing_data :=
          map (slice_to number_x_columns) (slice_from splitting_point data) in
        let y_testing_data :=
          map (slice_from number_x_columns) (slice_from splitting_point data) in
        _ <- (if flag then
                for_each
                  (fun i (_ : unit) =>
                     _ <- get x_training_data i ;;
                     _ <- get y_training_data i ;;
                     Ok tt)
                  (range (length data)) tt
              else Ok tt) ;;
        Ok (Split x_training_data y_training_data x_testing_data
              y_testing_data)
    | _ =>
        (* [data[:splitting_point, :number_x_columns]]: two indices
           into an array of one dimension *)
        Raise IndexError
    end
  else Ok (Whole data).

End Loader.

(** ** Scaler *)

(** The optional [mean] and [std] arguments of [scale_data]: left at
    their default [0], or an [np.ndarray]. *)
Inductive param : Type :=
| Default
| NdArray (a : vector).

Definition is_ndarray (p : param) : bool :=
  match p with
  | Default => false
  | NdArray _ => true
  end.

(** [p[j]] *)
Definition param_get (p : param) (j : nat) : res float :=
  match p with
  | Default => Raise TypeError
  | NdArray a => get a j
  end.

Inductive scaled : Type :=
| Fitted (scaled_data : matrix) (mean std : vector)
| Transformed (scaled_data : matrix).

(** The two nested loops shared by both branches of [scale_data]. *)
Definition scale_rows (data : matrix) (n_columns : nat) (mean std : param)
  : res matrix :=
  for_each
    (fun i scaled_data =>
       temp <- for_each
                 (fun j temp =>
                    row <- get data i ;;
                    v <- get row j ;;
                    m <- param_get mean j ;;
                    s <- param_get std j ;;
                    Ok (temp ++ [B64.div (B64.sub v m) s]))
                 (range n_columns) [] ;;
       Ok (scaled_data ++ [temp]))
    (range (length data)) [].

Section Scaler.

(** [np.mean(data, axis=0)] and [np.std(data, axis=0)] *)
Variables np_mean np_std : matrix -> vector.

Definition scale_data (data : matrix) (flag : bool) (mean std : param)
  : res scaled :=
  row0 <- get data 0 ;;
  let n_columns := length row0 in
  if negb (is_ndarray mean) && negb (is_ndarray std) then
    let mean := np_mean data in
    let std := np_std data in
    scaled_data <- scale_rows data n_columns (NdArray mean) (NdArray std) ;;
    Ok (Fitted scaled_data mean std)
  else
    scaled_data <- scale_rows data n_columns mean std ;;
    Ok (Transformed scaled_data).

End Scaler.

(** [np.mean(data, axis=0)]: for every column, the sum over the rows
    divided by their number. *)
Definition mean_axis0 (np : numpy) (data : matrix) : vector :=
  map (fun j =>
         B64.div (sum_axis0 np data j) (B64.of_Z (Z.of_nat (length data))))
    (seq 0 (ncols data)).

(** [np.std(data, axis=0)], with [ddof = 0]: for every column, the root
    of the mean of the squared deviations from the mean. *)
Definition std_axis0 (np : numpy) (data : matrix) : vector :=
  let arrmean := mean_axis0 np data in
  let x :=
    map (fun row =>
           map (fun j => B64.sub (nth j row B64.nan) (nth j arrmean B64.nan))
             (seq 0 (ncols data)))
      data in
  let x := map (map (fun d => B64.mul d d)) x in
  map (fun j =>
         B64.sqrt (B64.div (sum_axis0 np x j)
                     (B64.of_Z (Z.of_nat (length data)))))
    (seq 0 (ncols data)).

(** [fit_transform] and [transform]: [scale_data] without and with the
    training statistics. *)
Definition fit_transform (np : numpy) (data : matrix) : res scaled :=
  scale_data (mean_axis0 np) (std_axis0 np) data false Default Default.

Definition transform (np : numpy) (data : matrix) (mean std : vector)
  : res scaled :=
  scale_data (mean_axis0 np) (std_axis0 np) data false
    (NdArray mean) (NdArray std).

(** [predictions[i] = v] on a list. *)
Fixpoint assign {A : Type} (l : list A) (i : nat) (v : A) : res (list A) :=
  match l, i with
  | [], _ => Raise IndexError
  | _ :: rest, O => Ok (v :: rest)
  | a :: rest, S i' => rest' <- assign rest i' v ;; Ok (a :: rest')
  end.

Section Logistic.

Variable np : numpy.

(** ** Hypothesis evaluator *)

(** [1 / (1 + np.exp(z * -1))] *)
Definition logistic (z : float) : float :=
  B64.div B64.one (B64.add B64.one (np_exp np (B64.mul z B64.minus_one))).

(** [x] is a two-dimensional array. *)
Definition eval_hypothesis_function_multivariate (w : ndarray) (x : array2)
  : res ndarray :=
  z <- matmul np (transpose x) w ;;
  Ok (amap logistic z).

(** ** Gradient engine *)

(** [x] is a two-dimensional array and [n] a Python [int]. *)
Definition compute_gradient_of_cost_function_multivariate
  (hypothesis : ndarray) (x : array2) (y : ndarray) (n : Z) : res ndarray :=
  error <- np_subtract hypothesis y ;;
  product <- matmul np x error ;;
  Ok (amap (fun v => B64.div v (B64.of_Z n)) product).

Definition compute_L2_norm_multivariate (gradient : ndarray) : float :=
  B64.sqrt (np_sum np (amap (fun g => B64.mul g g) gradient)).

(** ** Trainer *)

(** The body of the [while] loop up to the test of the stopping
    criterion: the updated weights and the L2 norm of the gradient. *)
Definition descent_step (x : array2) (y : ndarray) (n : Z)
  (learning_rate : float) (w : ndarray) : res (ndarray * float) :=
  hypothesis <- eval_hypothesis_function_multivariate w x ;;
  gradient <- compute_gradient_of_cost_function_multivariate hypothesis x y n ;;
  let l2 := compute_L2_norm_multivariate gradient in
  w' <- np_subtract w (amap (B64.mul learning_rate) gradient) ;;
  Ok (w', l2).

(** The [while(1)] loop, run for at most [fuel] iterations; [None]
    when the loop is still running after [fuel] iterations. *)
Fixpoint descent_loop (fuel : nat) (x : array2) (y : ndarray) (n : Z)
  (learning_rate stopping_criteria : float) (w : ndarray)
  : option (res ndarray) :=
  match fuel with
  | O => None
  | S fuel' =>
      match descent_step x y n learning_rate w with
      | Raise e => Some (Raise e)
      | Ok (w', l2) =>
          if B64.ltb l2 stopping_criteria then Some (Ok w')
          else descent_loop fuel' x y n learning_rate stopping_criteria w'
      end
  end.

Definition gradient_descent (fuel : nat) (x y w : ndarray)
  (learning_rate stopping_criteria : float) : option (res ndarray) :=
  match hstack_ones x with
  | Raise e => Some (Raise e)
  | Ok x =>
      let x := transpose x in
      let n := Z.of_nat (len y) in
      descent_loop fuel x y n learning_rate stopping_criteria w
  end.

(** ** Predictor *)

(** The truth value of an array of booleans, as [if] takes it. *)
Definition truth (bs : list bool) : res bool :=
  match bs with
  | [] => empty_truth np
  | [b] => Ok b
  | _ => Raise ValueError
  end.

(** [predictions[i] >= 0.5] as the condition of the [if]: entry [i] of
    a vector, row [i] of a two-dimensional array. *)
Definition at_least_half (predictions : ndarray) (i : nat) : res bool :=
  match predictions with
  | A1 v => p <- get v i ;; Ok (B64.leb B64.half p)
  | A2 a => row <- get (rows a) i ;; truth (map (B64.leb B64.half) row)
  end.

(** [predictions[i] = c]: the entry, or every entry of the row. *)
Definition set_item (predictions : ndarray) (i : nat) (c : float)
  : res ndarray :=
  match predictions with
  | A1 v => v' <- assign v i c ;; Ok (A1 v')
  | A2 a =>
      row <- get (rows a) i ;;
      rows' <- assign (rows a) i (map (fun _ => c) row) ;;
      Ok (A2 (Array2 (columns a) rows'))
  end.

Definition predict (x w : ndarray) : res ndarray :=
  x <- hstack_ones x ;;
  z <- matmul np x w ;;
  let predictions := amap logistic z in
  for_each
    (fun i predictions =>
       c <- at_least_half predictions i ;;
       if c then set_item predictions i B64.one
       else set_item predictions i B64.zero)
    (range (len predictions)) predictions.

End Logistic.

(** * Specification-level notions

    Definitions used to state the properties of the embedded code. *)

(** ** Confusion matrix *)

(** A value that compares equal to 0 or to 1. *)
Definition in01 (v : num) : bool := num_eqb v 0 || num_eqb v 1.

(** [1] when the pair (prediction, label) is the outcome [(k, l)]. *)
Definition hit (u v : num) (k l : Z) : Z :=
  if num_eqb u k && num_eqb v l then 1 else 0.

(** The number of positions of [idx] whose outcome is [(k, l)]. *)
Fixpoint hits (p y : list num) (k l : Z) (idx : list nat) : Z :=
  match idx with
  | [] => 0
  | i :: idx' =>
      match nth_error p i, nth_error y i with
      | Some u, Some v => hit u v k l + hits p y k l idx'
      | _, _ => hits p y k l idx'
      end
  end.

(** The position [i] holds a prediction and a label that both lie in
    {0, 1}. *)
Definition binary_at (p y : list num) (i : nat) : bool :=
  match nth_error p i, nth_error y i with
  | Some u, Some v => in01 u && in01 v
  | _, _ => false
  end.

(** A position at which the loop reads a label that does not exist. *)
Definition reads_past (p y : list num) (i : nat) : bool :=
  match nth_error p i with
  | Some u => in01 u && Nat.leb (length y) i
  | None => false
  end.


(** ** Performance metrics *)

(** One of the five denominators of [print_performance_metrics] is
    zero: the four integer sums, or the float [precision + recall]. *)
Definition zero_denominator (tp tn fp fn : Z) : Prop :=
  tp + tn + fp + fn = 0 \/ tp + fp = 0 \/ tp + fn = 0 \/ tn + fp = 0 \/
  B64.eqb (B64.add (B64.div (B64.of_Z tp) (B64.of_Z (tp + fp)))
                   (B64.div (B64.of_Z tp) (B64.of_Z (tp + fn))))
          B64.zero = true.

(** ** Scaler *)

(** [[g i for i in idx]], stopping at the first exception. *)
Fixpoint traverse {I A : Type} (g : I -> res A) (idx : list I) : res (list A) :=
  match idx with
  | [] => Ok []
  | i :: idx' => v <- g i ;; vs <- traverse g idx' ;; Ok (v :: vs)
  end.

(** The entry [(value - columnMean) / columnStd] in binary64. *)
Definition scaled_entry (v mean std : float) : float :=
  B64.div (B64.sub v mean) std.

(** Entry [(i, j)] of a matrix. *)
Definition entry (x : matrix) (i j : nat) : option float :=
  match nth_error x i with
  | Some row => nth_error row j
  | None => None
  end.



(** ** Data loading *)

(** [np.hstack((x, y))]: the rows of [x] followed, row by row, by
    those of [y]. *)
Definition join_columns (x y : matrix) : matrix :=
  map (fun p => fst p ++ snd p) (combine x y).

(** ** Arrays *)


(** The entries of an array, row after row. *)
Definition entries (a : ndarray) : vector :=
  match a with
  | A1 v => v
  | A2 a => concat (rows a)
  end.

(** ** Hypothesis evaluator *)




(** A NaN. *)
Definition is_nan (v : float) : bool :=
  match v with
  | S754_nan => true
  | _ => false
  end.

(** ** Predictor *)

(** The class of a probability: 1 when it is at least 0.5, else 0. *)
Definition threshold (p : float) : float :=
  if B64.leb B64.half p then B64.one else B64.zero.

(** ** Trainer

    The iteration of the trainer as the design words it, written out on
    the array operations alone: hypothesis over the training set,
    gradient [x . (hypothesis - y) / n], its Euclidean norm, and the
    update [w - learning_rate * gradient]. *)

Section TrainerTrace.

Variable np : numpy.
Variables (x : array2) (y : ndarray) (n : Z).
Variables (learning_rate stopping_criteria : float).

Definition sigmoid (z : float) : float :=
  B64.div B64.one (B64.add B64.one (np_exp np (B64.mul z B64.minus_one))).





End TrainerTrace.

(** The training set as the trainer uses it: a column of ones in front
    of the features, examples in columns. *)
Definition with_bias (a : array2) : array2 :=
  Array2 (S (columns a)) (map (cons B64.one) (rows a)).

(** Not below zero: a zero of either sign, a positive number, the
    positive infinity, or NaN. *)
Definition not_negative (v : float) : bool :=
  match v with
  | S754_finite true _ _ | S754_infinity true => false
  | _ => true
  end.

(** Not above zero: a zero of either sign, a negative number, the
    negative infinity, or NaN. *)
Definition not_positive (v : float) : bool :=
  match v with
  | S754_finite false _ _ | S754_infinity false => false
  | _ => true
  end.

(** ** One choice of the NumPy routines

    Used to run the code on concrete inputs: products and sums are
    accumulated from left to right, every multiplication and addition
    rounded on its own.  The exponential is a stand-in that is exact
    where the exponential of binary64 is known without computing it (1
    at zero, 0 below -746 where it underflows, infinity above 710 where
    it overflows, NaN at NaN) and coarse in between; the runs in this
    file on which a value depends stay where it is exact. *)

Definition in_order_dot (a b : vector) : float :=
  fold_left (fun acc p => B64.add acc (B64.mul (fst p) (snd p)))
    (combine a b) B64.zero.

Definition in_order_sum (a : vector) : float :=
  match a with
  | [] => B64.zero
  | a0 :: rest => fold_left B64.add rest a0
  end.

Definition coarse_exp (t : float) : float :=
  match t with
  | S754_nan => B64.nan
  | S754_zero _ => B64.one
  | _ =>
      if B64.leb t (B64.of_Z (-746)) then B64.zero
      else if B64.leb (B64.of_Z 710) t then B64.infinity
      else if B64.ltb t B64.zero then B64.half
      else B64.two
  end.

Definition in_order : numpy :=
  NumPy coarse_exp
    (fun x v i => in_order_dot (nth i x []) v)
    (fun x m i j => in_order_dot (nth i x []) (map (fun r => nth j r B64.nan) m))
    (fun a => in_order_sum (entries a))
    (fun data j => in_order_sum (map (fun r => nth j r B64.nan) data))
    (Raise ValueError).

(** The binary64 number nearest to 0.1. *)
Definition one_tenth : float := B64.div (B64.of_Z 1) (B64.of_Z 10).

(** * Properties *)

(** ** Confusion matrix *)

Lemma num_eqb_0_1 (u : num) : num_eqb u 0 = true -> num_eqb u 1 = false.
Proof.
  destruct u as [z | f]; simpl.
  - intros H. apply Z.eqb_eq in H. subst z. reflexivity.
  - destruct f as [s | s | | s m e]; try discriminate; try reflexivity.
    + destruct s; discriminate.
    + destruct s; discriminate.
Qed.

Lemma num_eqb_1_0 (u : num) : num_eqb u 1 = true -> num_eqb u 0 = false.
Proof.
  intros H. destruct (num_eqb u 0) eqn:E; [ | reflexivity ].
  apply num_eqb_0_1 in E. congruence.
Qed.

Lemma confusion_step_eq (p y : list num) (i : nat) (a b c d : Z) (u : num) :
  nth_error p i = Some u ->
  confusion_step p y i [a; b; c; d] =
    if in01 u then
      match nth_error y i with
      | None => Raise IndexError
      | Some v =>
          Ok [a + hit u v 1 1; b + hit u v 0 0; c + hit u v 1 0; d + hit u v 0 1]
      end
    else Ok [a; b; c; d].
Proof.
  intros Hu. unfold confusion_step, and_then, get, in01, hit. rewrite Hu. simpl.
  destruct (num_eqb u 1) eqn:E1.
  - rewrite (num_eqb_1_0 _ E1). simpl.
    destruct (nth_error y i) as [v | ]; simpl; [ | reflexivity ].
    destruct (num_eqb v 1) eqn:F1; simpl.
    + rewrite (num_eqb_1_0 _ F1). simpl. now rewrite !Z.add_0_r.
    + destruct (num_eqb v 0); simpl; now rewrite !Z.add_0_r.
  - simpl. destruct (num_eqb u 0) eqn:E0; simpl; [ | reflexivity ].
    destruct (nth_error y i) as [v | ]; simpl; [ | reflexivity ].
    destruct (num_eqb v 0) eqn:F0; simpl.
    + rewrite (num_eqb_0_1 _ F0). simpl. now rewrite !Z.add_0_r.
    + destruct (num_eqb v 1); simpl; now rewrite !Z.add_0_r.
Qed.

Lemma confusion_loop (p y : list num) (idx : list nat) :
  Forall (fun i => (i < length p)%nat) idx ->
  forall a b c d,
    for_each (confusion_step p y) idx [a; b; c; d] =
      if existsb (reads_past p y) idx then Raise IndexError
      else Ok [a + hits p y 1 1 idx; b + hits p y 0 0 idx;
               c + hits p y 1 0 idx; d + hits p y 0 1 idx].
Proof.
  induction 1 as [ | i idx Hi _ IH]; intros a b c d.
  - simpl. now rewrite !Z.add_0_r.
  - apply nth_error_Some in Hi.
    destruct (nth_error p i) as [u | ] eqn:Hu; [ clear Hi | congruence ].
    cbn [for_each existsb hits]. unfold reads_past at 1.
    rewrite (confusion_step_eq p y i a b c d u Hu), Hu.
    destruct (in01 u) eqn:Eu; cbn [andb orb bind].
    + destruct (nth_error y i) as [v | ] eqn:Hv.
      * assert (Hlt : (i < length y)%nat) by (apply nth_error_Some; congruence).
        apply Nat.leb_gt in Hlt. rewrite Hlt. cbn [bind orb].
        rewrite IH. now rewrite !Z.add_assoc.
      * apply nth_error_None in Hv. apply Nat.leb_le in Hv. now rewrite Hv.
    + rewrite IH. destruct (existsb (reads_past p y) idx); [ reflexivity | ].
      destruct (nth_error y i) as [v | ]; [ | reflexivity ].
      unfold hit. unfold in01 in Eu. apply orb_false_elim in Eu as [E0 E1].
      rewrite E0, E1. simpl. reflexivity.
Qed.

Lemma range_bounded (n : nat) : Forall (fun i => (i < n)%nat) (range n).
Proof.
  apply Forall_forall. intros i Hi. apply in_seq in Hi. lia.
Qed.

Lemma get_confusion_matrix_eq (p y : list num) :
  get_confusion_matrix p y =
    let idx := range (length p) in
    if existsb (reads_past p y) idx then Raise IndexError
    else Ok [hits p y 1 1 idx; hits p y 0 0 idx;
             hits p y 1 0 idx; hits p y 0 1 idx].
Proof.
  unfold get_confusion_matrix.
  rewrite (confusion_loop p y _ (range_bounded (length p))). reflexivity.
Qed.

Lemma hit_partition (u v : num) :
  hit u v 1 1 + hit u v 0 0 + hit u v 1 0 + hit u v 0 1 =
    if in01 u && in01 v then 1 else 0.
Proof.
  unfold hit, in01.
  destruct (num_eqb u 1) eqn:E1; [ rewrite (num_eqb_1_0 _ E1) | ];
    (destruct (num_eqb v 1) eqn:F1; [ rewrite (num_eqb_1_0 _ F1) | ]);
    destruct (num_eqb u 0); destruct (num_eqb v 0); reflexivity.
Qed.

Lemma hits_partition (p y : list num) (idx : list nat) :
  hits p y 1 1 idx + hits p y 0 0 idx + hits p y 1 0 idx + hits p y 0 1 idx =
    Z.of_nat (length (filter (binary_at p y) idx)).
Proof.
  induction idx as [ | i idx IH]; [ reflexivity | ].
  cbn [hits filter]. unfold binary_at at 1.
  destruct (nth_error p i) as [u | ]; [ | exact IH ].
  destruct (nth_error y i) as [v | ]; [ | exact IH ].
  pose proof (hit_partition u v) as H.
  destruct (in01 u && in01 v); cbn [length]; lia.
Qed.

Lemma filter_length_all {A : Type} (f : A -> bool) (l : list A) :
  length (filter f l) = length l <-> forallb f l = true.
Proof.
  induction l as [ | a l IH]; simpl; [ tauto | ].
  pose proof (filter_length_le f l) as Hle.
  destruct (f a); simpl.
  - rewrite <- IH. lia.
  - split; [ lia | discriminate ].
Qed.

Lemma no_reads_past (p y : list num) :
  (length p <= length y)%nat ->
  existsb (reads_past p y) (range (length p)) = false.
Proof.
  intros Hle. destruct (existsb _ _) eqn:E; [ | reflexivity ].
  apply existsb_exists in E as (i & Hi & Hr).
  apply in_seq in Hi. unfold reads_past in Hr.
  destruct (nth_error p i); [ | discriminate ].
  apply andb_true_iff in Hr as [_ Hr]. apply Nat.leb_le in Hr. lia.
Qed.

Lemma all_binary_at (p y : list num) :
  length p = length y ->
  forallb (binary_at p y) (range (length p)) = true <->
  Forall (fun v => in01 v = true) p /\ Forall (fun v => in01 v = true) y.
Proof.
  intros Hlen. rewrite forallb_forall, !Forall_forall. split.
  - intros H. split; intros v Hv; apply In_nth_error in Hv as [i Hi].
    + assert (Hlt : (i < length p)%nat) by (apply nth_error_Some; congruence).
      specialize (H i). unfold binary_at in H. rewrite Hi in H.
      destruct (nth_error y i); [ | discriminate H; apply in_seq; lia ].
      apply andb_true_iff in H; [ tauto | apply in_seq; lia ].
    + assert (Hlt : (i < length y)%nat) by (apply nth_error_Some; congruence).
      specialize (H i). unfold binary_at in H. rewrite Hi in H.
      destruct (nth_error p i); [ | discriminate H; apply in_seq; lia ].
      apply andb_true_iff in H; [ tauto | apply in_seq; lia ].
  - intros [Hp Hy] i Hi. apply in_seq in Hi. unfold binary_at.
    destruct (nth_error p i) as [u | ] eqn:Hu;
      [ | apply nth_error_None in Hu; lia ].
    destruct (nth_error y i) as [v | ] eqn:Hv;
      [ | apply nth_error_None in Hv; lia ].
    apply nth_error_In in Hu, Hv. rewrite (Hp u Hu), (Hy v Hv). reflexivity.
Qed.

(** C10: on equal-length inputs the four counters are the numbers of
    positions showing each of the four outcomes; a position where the
    prediction or the label is outside {0, 1} is skipped, so the counters
    add up to the number of positions with both values in {0, 1}, and to
    the input length exactly when every value is in {0, 1}. *)
Theorem confusion_matrix_counts_binary_positions (p y : list num) :
  length p = length y ->
  exists tp tn fp fn : Z,
    get_confusion_matrix p y = Ok [tp; tn; fp; fn] /\
    tp = hits p y 1 1 (range (length p)) /\
    tn = hits p y 0 0 (range (length p)) /\
    fp = hits p y 1 0 (range (length p)) /\
    fn = hits p y 0 1 (range (length p)) /\
    tp + tn + fp + fn =
      Z.of_nat (length (filter (binary_at p y) (range (length p)))) /\
    (tp + tn + fp + fn = Z.of_nat (length p) <->
     Forall (fun v => in01 v = true) p /\ Forall (fun v => in01 v = true) y).
Proof.
  intros Hlen. rewrite get_confusion_matrix_eq. cbv zeta.
  rewrite no_reads_past by lia.
  do 4 eexists. split; [ reflexivity | ]. repeat (split; [ reflexivity | ]).
  rewrite hits_partition. split; [ reflexivity | ].
  rewrite <- (all_binary_at p y Hlen), <- filter_length_all.
  unfold range at 3. rewrite length_seq. lia.
Qed.

Lemma confusion_matrix_counts_binary_positions_witness :
  exists tp tn fp fn : Z,
    get_confusion_matrix [Int 1; Float B64.zero; Int 7; Int 0]
                         [Int 1; Int 0; Int 0; Int 5] = Ok [tp; tn; fp; fn] /\
    tp + tn + fp + fn = 2.
Proof.
  destruct (confusion_matrix_counts_binary_positions
              [Int 1; Float B64.zero; Int 7; Int 0]
              [Int 1; Int 0; Int 0; Int 5] eq_refl)
    as (tp & tn & fp & fn & Hm & _ & _ & _ & _ & Hsum & _).
  exists tp, tn, fp, fn. split; [ exact Hm | exact Hsum ].
Defined.

Lemma hits_firstn (p y : list num) (k l : Z) (n : nat) (idx : list nat) :
  Forall (fun i => (i < n)%nat) idx ->
  hits p (firstn n y) k l idx = hits p y k l idx.
Proof.
  induction 1 as [ | i idx Hi _ IH]; [ reflexivity | ].
  cbn [hits]. rewrite nth_error_firstn, IH.
  apply Nat.ltb_lt in Hi. now rewrite Hi.
Qed.

Lemma reads_past_iff (p y : list num) :
  existsb (reads_past p y) (range (length p)) = true <->
  exists i u, (length y <= i)%nat /\ nth_error p i = Some u /\ in01 u = true.
Proof.
  rewrite existsb_exists. unfold reads_past. split.
  - intros (i & _ & Hr). destruct (nth_error p i) as [u | ] eqn:Hu;
      [ | discriminate ].
    apply andb_true_iff in Hr as [H01 Hle]. apply Nat.leb_le in Hle.
    exists i, u. auto.
  - intros (i & u & Hle & Hu & H01). exists i. split.
    + apply in_seq. assert ((i < length p)%nat) by (apply nth_error_Some; congruence).
      lia.
    + rewrite Hu, H01. apply Nat.leb_le in Hle. now rewrite Hle.
Qed.

(** C2 (counterexample): with one prediction and two labels nothing is
    signalled, the surplus label is dropped; with a prediction outside
    {0, 1} and no label at all nothing is signalled either. *)
Lemma confusion_matrix_unequal_lengths_accepted :
  length [Int 1] <> length [Int 1; Int 0] /\
  get_confusion_matrix [Int 1] [Int 1; Int 0] = Ok [1; 0; 0; 0] /\
  length [Int 2] <> length (@nil num) /\
  get_confusion_matrix [Int 2] [] = Ok [0; 0; 0; 0].
Proof.
  repeat split; try discriminate; reflexivity.
Qed.

(** C2 (amended): on inputs of unequal length the only error ever
    signalled is [IndexError], and it is signalled exactly when some
    prediction lying in {0, 1} sits at a position that has no label; so
    it is signalled whenever the predictions are the longer sequence and
    all lie in {0, 1}, while labels in surplus are dropped without any
    error, the result being that of the labels cut to the length of the
    predictions. *)
Theorem confusion_matrix_unequal_lengths (p y : list num) :
  length p <> length y ->
  (get_confusion_matrix p y = Raise IndexError <->
   exists i u,
     (length y <= i)%nat /\ nth_error p i = Some u /\ in01 u = true) /\
  (forall e, get_confusion_matrix p y = Raise e -> e = IndexError) /\
  ((length y < length p)%nat -> Forall (fun v => in01 v = true) p ->
   get_confusion_matrix p y = Raise IndexError) /\
  ((length p < length y)%nat ->
   (exists m, get_confusion_matrix p y = Ok m) /\
   get_confusion_matrix p y = get_confusion_matrix p (firstn (length p) y)).
Proof.
  intros _. pose proof (reads_past_iff p y) as Hiff.
  assert (Hraise : get_confusion_matrix p y = Raise IndexError <->
                   existsb (reads_past p y) (range (length p)) = true).
  { rewrite get_confusion_matrix_eq. cbv zeta.
    destruct (existsb _ _); split; congruence. }
  split; [ now rewrite Hraise | ]. split; [ | split ].
  - intros e. rewrite get_confusion_matrix_eq. cbv zeta.
    destruct (existsb _ _); congruence.
  - intros Hlt Hall. apply Hraise, Hiff.
    destruct (nth_error p (length y)) as [u | ] eqn:Hu;
      [ | apply nth_error_None in Hu; lia ].
    exists (length y), u. split; [ lia | split; [ exact Hu | ] ].
    rewrite Forall_forall in Hall. apply Hall. eapply nth_error_In, Hu.
  - intros Hlt. rewrite !get_confusion_matrix_eq. cbv zeta.
    rewrite !no_reads_past by (rewrite ?length_firstn; lia).
    split; [ eexists; reflexivity | ].
    now rewrite !hits_firstn by apply range_bounded.
Qed.

Lemma confusion_matrix_unequal_lengths_witness :
  get_confusion_matrix [Int 1; Int 0] [Int 1] = Raise IndexError /\
  get_confusion_matrix [Int 1] [Int 1; Int 0] =
    get_confusion_matrix [Int 1] (firstn 1 [Int 1; Int 0]).
Proof.
  split.
  - destruct (confusion_matrix_unequal_lengths [Int 1; Int 0] [Int 1])
      as (_ & _ & H & _); [ discriminate | ].
    apply H; [ simpl; lia | repeat constructor ].
  - destruct (confusion_matrix_unequal_lengths [Int 1] [Int 1; Int 0])
      as (_ & _ & _ & H); [ discriminate | ].
    apply H. simpl. lia.
Defined.

(** ** Performance metrics *)

(** C1 (counterexample): with no positive prediction ([tp + fp = 0])
    the computation of the metrics stops with [ZeroDivisionError]; no
    metric is reported, finite or not. *)
Lemma metrics_no_positive_prediction_raises :
  print_performance_metrics [0; 1; 0; 1] = Raise ZeroDivisionError.
Proof. reflexivity. Qed.

(** C1 (amended): whenever one of the denominators is zero (an integer
    sum, or the float [precision + recall] of the F1 score) the
    computation stops with [ZeroDivisionError] and reports nothing;
    otherwise it reports the five metrics. *)
Theorem metrics_zero_denominator_raises (tp tn fp fn : Z) :
  (zero_denominator tp tn fp fn ->
   print_performance_metrics [tp; tn; fp; fn] = Raise ZeroDivisionError) /\
  (~ zero_denominator tp tn fp fn ->
   exists r, print_performance_metrics [tp; tn; fp; fn] = Ok r).
Proof.
  unfold zero_denominator, print_performance_metrics, int_truediv,
    float_truediv.
  cbn [get nth_error bind].
  destruct (Z.eqb_spec (tp + tn + fp + fn) 0) as [E1 | E1];
    [ split; [ reflexivity | tauto ] | ].
  rewrite <- Z.add_assoc in E1.
  destruct (Z.eqb_spec (tp + tn + (fp + fn)) 0) as [E1' | _];
    [ lia | ].
  assert (Heq : (tp + tn + fp + fn =? 0) = false) by (apply Z.eqb_neq; lia).
  rewrite ?Heq. cbn [bind].
  destruct (Z.eqb_spec (tp + fp) 0) as [E2 | E2];
    [ split; [ reflexivity | tauto ] | ].
  cbn [bind].
  destruct (Z.eqb_spec (tp + fn) 0) as [E3 | E3];
    [ split; [ reflexivity | tauto ] | ].
  cbn [bind].
  destruct (Z.eqb_spec (tn + fp) 0) as [E4 | E4];
    [ split; [ reflexivity | tauto ] | ].
  cbn [bind].
  destruct (B64.eqb _ B64.zero) eqn:E5; cbn [bind].
  - split; [ reflexivity | tauto ].
  - split; [ | eexists; reflexivity ].
    intros [H | [H | [H | [H | H]]]]; try contradiction; try discriminate.
    lia.
Qed.

Lemma metrics_zero_denominator_raises_witness :
  print_performance_metrics [0; 0; 1; 1] = Raise ZeroDivisionError /\
  exists r, print_performance_metrics [1; 1; 1; 1] = Ok r.
Proof.
  split.
  - apply (metrics_zero_denominator_raises 0 0 1 1).
    do 4 right. reflexivity.
  - apply (metrics_zero_denominator_raises 1 1 1 1).
    intros [H | [H | [H | [H | H]]]]; vm_compute in H; discriminate H.
Defined.

(** ** Train/test split *)

Lemma slice_to_from_length {A : Type} (k : Z) (l : list A) :
  (length (slice_to k l) + length (slice_from k l))%nat = length l.
Proof.
  unfold slice_to, slice_from.
  destruct (k <? 0);
    match goal with
    | |- (length (firstn ?n l) + _)%nat = _ =>
        pose proof (f_equal (@length A) (firstn_skipn n l)) as H;
        rewrite length_app in H; exact H
    end.
Qed.

Lemma slice_to_length_nonneg {A : Type} (k : Z) (l : list A) :
  0 <= k -> length (slice_to k l) = Nat.min (Z.to_nat k) (length l).
Proof.
  intros Hk. unfold slice_to.
  destruct (Z.ltb_spec k 0); [ lia | ]. apply length_firstn.
Qed.

Lemma load_data_split (shuffle : matrix -> matrix)
  (shuffle_line : vector -> vector) (headers : vector)
  (data : matrix) (split : num) (flag : bool) (a b c d : matrix) :
  load_data shuffle shuffle_line (Line headers) (Rows data) true split flag = Ok (Split a b c d) ->
  exists sp,
    splitting_point (length (shuffle data)) split = Ok sp /\
    length a = length (slice_to sp (shuffle data)) /\
    length b = length a /\
    length c = length (slice_from sp (shuffle data)) /\
    length d = length c.
Proof.
  unfold load_data. cbn [np_random_shuffle table_len bind].
  destruct (splitting_point (length (shuffle data)) split) as [sp | e];
    cbn [bind]; [ | discriminate ].
  match goal with
  | |- bind ?printing _ = _ -> _ => destruct printing; cbn [bind]
  end; [ | discriminate ].
  intros H. injection H as <- <- <- <-. exists sp.
  rewrite !length_map. auto.
Qed.

(** C4 (the code at the failing input): whatever rows are returned,
    training and testing rows together are all the rows; but a dataset
    of 100 rows split at 29 percent gets 28 training rows and 72 testing
    rows, where [floor (100 * 29 / 100)] is 29: the quotient [29 / 100]
    and the product by 100 are both rounded to binary64 before the
    floor is taken. *)
Theorem load_data_100_rows_29_percent (shuffle : matrix -> matrix)
  (shuffle_line : vector -> vector)
  (headers : vector) (data : matrix) :
  length (shuffle data) = 100%nat ->
  100 * 29 / 100 = 29 /\
  splitting_point 100 (Int 29) = Ok 28 /\
  exists a b c d,
    load_data shuffle shuffle_line (Line headers) (Rows data) true (Int 29) false = Ok (Split a b c d) /\
    length a = 28%nat /\ length c = 72%nat /\
    (length a + length c)%nat = length (shuffle data).
Proof.
  intros Hlen. split; [ reflexivity | ].
  assert (Hsp : splitting_point 100 (Int 29) = Ok 28) by (vm_compute; reflexivity).
  split; [ exact Hsp | ].
  destruct (load_data shuffle shuffle_line (Line headers) (Rows data) true (Int 29) false)
    as [[a b c d | whole] | e] eqn:Hload.
  - exists a, b, c, d. split; [ reflexivity | ].
    apply load_data_split in Hload as (sp & Hsp' & Ha & _ & Hc & _).
    rewrite Hlen, Hsp in Hsp'. injection Hsp' as <-.
    pose proof (slice_to_from_length 28 (shuffle data)) as Hsum.
    rewrite <- Ha, <- Hc in Hsum.
    rewrite slice_to_length_nonneg in Ha by lia.
    rewrite Hlen in Ha. change (Nat.min (Z.to_nat 28) 100) with 28%nat in Ha.
    lia.
  - exfalso. unfold load_data in Hload. cbn [np_random_shuffle table_len bind] in Hload. rewrite Hlen, Hsp in Hload.
    discriminate Hload.
  - exfalso. unfold load_data in Hload. cbn [np_random_shuffle table_len bind] in Hload. rewrite Hlen, Hsp in Hload.
    discriminate Hload.
Qed.

Lemma load_data_100_rows_29_percent_witness :
  splitting_point 100 (Int 29) = Ok 28 /\
  exists a b c d,
    load_data (@rev vector) (@rev float) (Line [B64.zero; B64.zero])
      (Rows (repeat [B64.half; B64.one] 100)) true (Int 29) false
    = Ok (Split a b c d) /\
    length a = 28%nat /\ length c = 72%nat.
Proof.
  destruct (load_data_100_rows_29_percent (@rev vector) (@rev float)
              [B64.zero; B64.zero] (repeat [B64.half; B64.one] 100))
    as (_ & Hsp & a & b & c & d & Hload & Ha & Hc & _).
  - rewrite length_rev. apply repeat_length.
  - split; [ exact Hsp | ]. exists a, b, c, d. auto.
Defined.

(** ** Scaler *)

(** Linear arithmetic over list lengths, whatever name the element type
    goes by. *)
Ltac list_lia := cbv [matrix vector float B64.float] in *; lia.

Lemma for_each_ext {I A : Type} (body body' : I -> A -> res A) (idx : list I) :
  (forall i acc, In i idx -> body i acc = body' i acc) ->
  forall acc, for_each body idx acc = for_each body' idx acc.
Proof.
  induction idx as [ | i idx IH]; intros Hext acc; [ reflexivity | ].
  cbn [for_each]. rewrite Hext by (left; reflexivity).
  destruct (body' i acc); cbn [bind]; [ | reflexivity ].
  apply IH. intros j acc' Hj. apply Hext. right. exact Hj.
Qed.

Lemma for_each_collect {I A : Type} (g : I -> res A) (idx : list I) :
  forall acc,
    for_each (fun i acc => v <- g i ;; Ok (acc ++ [v])) idx acc =
    (vs <- traverse g idx ;; Ok (acc ++ vs)).
Proof.
  induction idx as [ | i idx IH]; intros acc; cbn [for_each traverse bind].
  - now rewrite app_nil_r.
  - destruct (g i) as [v | e]; cbn [bind]; [ | reflexivity ].
    rewrite IH. destruct (traverse g idx); cbn [bind]; [ | reflexivity ].
    now rewrite <- app_assoc.
Qed.

Lemma traverse_ok {I A : Type} (g : I -> res A) (h : I -> A) (idx : list I) :
  (forall i, In i idx -> g i = Ok (h i)) ->
  traverse g idx = Ok (map h idx).
Proof.
  induction idx as [ | i idx IH]; intros Hg; [ reflexivity | ].
  cbn [traverse map]. rewrite Hg by (left; reflexivity). cbn [bind].
  rewrite IH by (intros j Hj; apply Hg; right; exact Hj). reflexivity.
Qed.

(** The loops of [scale_data] as two nested comprehensions. *)
Lemma scale_rows_traverse (data : matrix) (n_columns : nat) (mean std : param) :
  scale_rows data n_columns mean std =
    traverse
      (fun i =>
         traverse
           (fun j =>
              row <- get data i ;;
              v <- get row j ;;
              m <- param_get mean j ;;
              s <- param_get std j ;;
              Ok (scaled_entry v m s))
           (range n_columns))
      (range (length data)).
Proof.
  unfold scale_rows.
  rewrite for_each_ext with
    (body' := fun i acc =>
       v <- traverse
              (fun j =>
                 row <- get data i ;;
                 v <- get row j ;;
                 m <- param_get mean j ;;
                 s <- param_get std j ;;
                 Ok (scaled_entry v m s))
              (range n_columns) ;;
       Ok (acc ++ [v])).
  - rewrite for_each_collect.
    destruct (traverse _ (range (length data))); reflexivity.
  - intros i acc _.
    rewrite for_each_ext with
      (body' := fun j temp =>
         v <- (row <- get data i ;;
               v <- get row j ;;
               m <- param_get mean j ;;
               s <- param_get std j ;;
               Ok (scaled_entry v m s)) ;;
         Ok (temp ++ [v])).
    + rewrite for_each_collect.
      destruct (traverse _ (range n_columns)); reflexivity.
    + intros j temp _.
      destruct (get data i) as [row | ]; cbn [bind]; [ | reflexivity ].
      destruct (get row j); cbn [bind]; [ | reflexivity ].
      destruct (param_get mean j); cbn [bind]; [ | reflexivity ].
      destruct (param_get std j); reflexivity.
Qed.

Lemma rectangular_rows (data : matrix) (row : vector) :
  rectangular data = true -> In row data -> length row = ncols data.
Proof.
  unfold rectangular. rewrite forallb_forall. intros H Hin.
  apply Nat.eqb_eq, H, Hin.
Qed.

Lemma get_nth {A : Type} (l : list A) (i : nat) (d : A) :
  (i < length l)%nat -> get l i = Ok (nth i l d).
Proof.
  intros Hi. unfold get. rewrite (nth_error_nth' l d Hi). reflexivity.
Qed.

Lemma map_nth_range {A B : Type} (f : A -> B) (l : list A) (d : A) :
  map (fun i => f (nth i l d)) (range (length l)) = map f l.
Proof.
  unfold range. induction l as [ | a l IH]; [ reflexivity | ].
  cbn [length seq map nth]. rewrite <- seq_shift, map_map. now rewrite IH.
Qed.

(** On a rectangular matrix, with one mean and one std per column, the
    loops never fail and fill the scaled matrix entry by entry. *)
Lemma scale_rows_rectangular (data : matrix) (mean std : vector) :
  rectangular data = true ->
  length mean = ncols data -> length std = ncols data ->
  scale_rows data (ncols data) (NdArray mean) (NdArray std) =
    Ok (map (fun row =>
               map (fun j => scaled_entry (nth j row B64.nan)
                               (nth j mean B64.nan) (nth j std B64.nan))
                 (range (ncols data)))
          data).
Proof.
  intros Hrect Hm Hs. rewrite scale_rows_traverse.
  rewrite <- (map_nth_range
                (fun row =>
                   map (fun j => scaled_entry (nth j row B64.nan)
                                   (nth j mean B64.nan) (nth j std B64.nan))
                     (range (ncols data))) data []).
  apply traverse_ok. intros i Hi. apply in_seq in Hi.
  apply traverse_ok. intros j Hj. apply in_seq in Hj.
  rewrite (get_nth data i []) by apply Hi. cbn [bind].
  assert (Hrow : length (nth i data []) = ncols data).
  { apply rectangular_rows; [ exact Hrect | apply nth_In; apply Hi ]. }
  rewrite (get_nth _ j B64.nan) by list_lia. cbn [bind param_get].
  rewrite (get_nth mean j B64.nan), (get_nth std j B64.nan) by list_lia.
  reflexivity.
Qed.



Lemma entry_map_range (F : vector -> nat -> float) (data : matrix) (n i j : nat)
  (row : vector) :
  nth_error data i = Some row -> (j < n)%nat ->
  entry (map (fun row => map (F row) (range n)) data) i j = Some (F row j).
Proof.
  intros Hrow Hj. unfold entry. rewrite nth_error_map, Hrow. cbn [option_map].
  rewrite nth_error_map. unfold range.
  rewrite (nth_error_nth' (seq 0 n) O) by (rewrite length_seq; exact Hj).
  rewrite seq_nth by exact Hj. reflexivity.
Qed.


Lemma fit_transform_rectangular (np : numpy) (data : matrix) :
  data <> [] -> rectangular data = true ->
  fit_transform np data =
    Ok (Fitted
          (map (fun row =>
                  map (fun j => scaled_entry (nth j row B64.nan)
                                  (nth j (mean_axis0 np data) B64.nan)
                                  (nth j (std_axis0 np data) B64.nan))
                    (range (ncols data)))
             data)
          (mean_axis0 np data) (std_axis0 np data)).
Proof.
  intros Hne Hrect. unfold fit_transform, scale_data.
  destruct data as [ | row0 rest]; [ congruence | ].
  cbn [get nth_error bind is_ndarray negb andb].
  change (length row0) with (ncols (row0 :: rest)).
  rewrite scale_rows_rectangular;
    [ reflexivity | exact Hrect | | ];
    unfold mean_axis0, std_axis0; cbv zeta; now rewrite length_map, length_seq.
Qed.

(** C5: the pair (mean, std) returned by the fitting call, given back
    to [scale_data] with the same matrix, yields the very scaled matrix
    of the fitting call; a call that is given a mean or std array
    returns the same result whatever the statistics functions are, it
    never evaluates them; and on a rectangular matrix its entry [(i, j)]
    is [(value - mean_j) / std_j] for the mean and std it was given. *)
Theorem transform_reproduces_fit_transform (np_mean np_std : matrix -> vector)
  (data : matrix) (flag flag' : bool) (scaled_data : matrix) (mean std : vector) :
  scale_data np_mean np_std data flag Default Default
    = Ok (Fitted scaled_data mean std) ->
  scale_data np_mean np_std data flag' (NdArray mean) (NdArray std)
    = Ok (Transformed scaled_data) /\
  (forall (test : matrix) (p q : param) (mean_fn std_fn : matrix -> vector),
     is_ndarray p || is_ndarray q = true ->
     scale_data mean_fn std_fn test flag' p q
     = scale_data np_mean np_std test flag' p q) /\
  (forall (test : matrix) (m s : vector),
     test <> [] -> rectangular test = true ->
     length m = ncols test -> length s = ncols test ->
     exists out,
       scale_data np_mean np_std test flag' (NdArray m) (NdArray s)
         = Ok (Transformed out) /\
       forall i j v mj sj,
         entry test i j = Some v ->
         nth_error m j = Some mj -> nth_error s j = Some sj ->
         entry out i j = Some (scaled_entry v mj sj)).
Proof.
  intros Hfit. split; [ | split ].
  - unfold scale_data in *.
    destruct (get data 0) as [row0 | e]; cbn [bind] in *; [ | discriminate ].
    cbn [is_ndarray negb andb] in *.
    destruct (scale_rows data (length row0) (NdArray (np_mean data))
                (NdArray (np_std data))) as [sc | e] eqn:Hrows;
      cbn [bind] in Hfit; [ | discriminate ].
    injection Hfit as <- <- <-. rewrite Hrows. reflexivity.
  - intros test p q mean_fn std_fn Harr. unfold scale_data.
    destruct p, q; try discriminate; reflexivity.
  - intros test m s Hne Hrect Hm Hs. unfold scale_data.
    destruct test as [ | row0 rest]; [ congruence | ].
    cbn [get nth_error bind is_ndarray negb andb].
    change (length row0) with (ncols (row0 :: rest)).
    rewrite (scale_rows_rectangular _ m s Hrect Hm Hs). cbn [bind].
    eexists. split; [ reflexivity | ].
    intros i j v mj sj Hv Hmj Hsj. unfold entry in Hv.
    destruct (nth_error (row0 :: rest) i) as [row | ] eqn:Hrow;
      [ | discriminate ].
    assert (Hj : (j < ncols (row0 :: rest))%nat).
    { rewrite <- (rectangular_rows _ row Hrect (nth_error_In _ _ Hrow)).
      apply nth_error_Some. congruence. }
    transitivity
      (Some (scaled_entry (nth j row B64.nan) (nth j m B64.nan)
               (nth j s B64.nan))).
    + apply (entry_map_range
               (fun row j => scaled_entry (nth j row B64.nan)
                               (nth j m B64.nan) (nth j s B64.nan))
               (row0 :: rest) (ncols (row0 :: rest)) i j row Hrow Hj).
    + apply f_equal. apply f_equal3; apply nth_error_nth; assumption.
Qed.

Lemma transform_reproduces_fit_transform_witness :
  exists scaled_data mean std,
    fit_transform in_order [[B64.one; B64.two]; [B64.two; B64.zero]]
      = Ok (Fitted scaled_data mean std) /\
    transform in_order [[B64.one; B64.two]; [B64.two; B64.zero]] mean std
      = Ok (Transformed scaled_data).
Proof.
  eexists _, _, _. split.
  - vm_compute. reflexivity.
  - apply (transform_reproduces_fit_transform (mean_axis0 in_order)
             (std_axis0 in_order)
             [[B64.one; B64.two]; [B64.two; B64.zero]] false false).
    vm_compute. reflexivity.
Defined.



(** ** Trainer *)

Section TrainerLoop.

Variable np : numpy.
Variables (x : array2) (y : ndarray) (n : Z).
Variables (learning_rate stopping_criteria : float).








End TrainerLoop.


(** ** Binary64 facts about zeros *)

Lemma mul_finite_zero (a b : float) :
  B64.is_finite a = true -> B64.is_zero b = true ->
  B64.is_zero (B64.mul a b) = true.
Proof.
  destruct a, b; simpl; intros; try discriminate; reflexivity.
Qed.

Lemma add_zero_zero (a b : float) :
  B64.is_zero a = true -> B64.is_zero b = true ->
  B64.is_zero (B64.add a b) = true.
Proof.
  destruct a as [[ | ] | | | ], b as [[ | ] | | | ]; simpl; intros;
    try discriminate; reflexivity.
Qed.

(** An inner product with a vector of zeros is a zero, as long as the
    other vector holds no infinity and no NaN: checked here for the
    accumulation from left to right. *)
Lemma in_order_dot_zero (a b : vector) :
  Forall (fun v => B64.is_finite v = true) a ->
  Forall (fun v => B64.is_zero v = true) b ->
  B64.is_zero (in_order_dot a b) = true.
Proof.
  unfold in_order_dot. intros Ha. revert b.
  assert (H : forall acc b, B64.is_zero acc = true ->
            Forall (fun v => B64.is_zero v = true) b ->
            B64.is_zero
              (fold_left (fun acc p => B64.add acc (B64.mul (fst p) (snd p)))
                 (combine a b) acc) = true).
  { induction Ha as [ | v a Hv Ha IH]; intros acc b Hacc Hb; [ exact Hacc | ].
    destruct Hb as [ | u b Hu Hb]; [ exact Hacc | ].
    cbn [combine fold_left fst snd]. apply IH; [ | exact Hb ].
    apply add_zero_zero; [ exact Hacc | now apply mul_finite_zero ]. }
  intros b Hb. now apply H.
Qed.

(** ** Predictor *)

Lemma get_middle {A : Type} (done rest : list A) (p : A) :
  get (done ++ p :: rest) (length done) = Ok p.
Proof.
  unfold get. rewrite nth_error_app2 by lia. now rewrite Nat.sub_diag.
Qed.

Lemma assign_middle {A : Type} (done rest : list A) (p v : A) :
  assign (done ++ p :: rest) (length done) v = Ok (done ++ v :: rest).
Proof.
  induction done as [ | a done IH]; [ reflexivity | ].
  cbn [app length assign]. rewrite IH. reflexivity.
Qed.

(** The loop of [predict] replaces every probability of a vector by its
    class. *)
Lemma threshold_loop (np : numpy) (done rest : vector) :
  for_each
    (fun i predictions =>
       c <- at_least_half np predictions i ;;
       if c then set_item predictions i B64.one
       else set_item predictions i B64.zero)
    (seq (length done) (length rest)) (A1 (done ++ rest))
  = Ok (A1 (done ++ map threshold rest)).
Proof.
  revert done. induction rest as [ | p rest IH]; intros done; [ reflexivity | ].
  cbn [length seq for_each map at_least_half]. rewrite get_middle. cbn [bind].
  pose proof (IH (done ++ [threshold p])) as H.
  rewrite length_app in H. cbn [length] in H.
  rewrite Nat.add_1_r, <- !app_assoc in H. cbn [app] in H.
  change (threshold p)
    with (if B64.leb B64.half p then B64.one else B64.zero) in *.
  destruct (B64.leb B64.half p); cbn [set_item]; rewrite assign_middle;
    cbn [bind]; exact H.
Qed.

(** The same loop on a column: every row holds one probability. *)
Lemma threshold_loop_column (np : numpy) (done : matrix) (rest : vector) :
  for_each
    (fun i predictions =>
       c <- at_least_half np predictions i ;;
       if c then set_item predictions i B64.one
       else set_item predictions i B64.zero)
    (seq (length done) (length rest))
    (A2 (Array2 1 (done ++ map (fun p => [p]) rest)))
  = Ok (A2 (Array2 1 (done ++ map (fun p => [threshold p]) rest))).
Proof.
  revert done. induction rest as [ | p rest IH]; intros done; [ reflexivity | ].
  cbn [length seq for_each map at_least_half rows columns].
  rewrite get_middle. cbn [bind map truth].
  pose proof (IH (done ++ [[threshold p]])) as H.
  rewrite length_app in H. cbn [length] in H.
  rewrite Nat.add_1_r, <- !app_assoc in H. cbn [app] in H.
  change (threshold p)
    with (if B64.leb B64.half p then B64.one else B64.zero) in *.
  destruct (B64.leb B64.half p); cbn [set_item rows columns];
    rewrite get_middle; cbn [bind map]; rewrite assign_middle;
    cbn [bind]; exact H.
Qed.

Lemma predict_vector (np : numpy) (a : array2) (w : vector) :
  predict np (A2 a) (A1 w) =
    if Nat.eqb (S (columns a)) (length w)
    then Ok (A1 (map (fun i =>
                        threshold
                          (sigmoid np
                             (matmul_vec np (rows (with_bias a)) w i)))
                   (range (length (rows a)))))
    else Raise ValueError.
Proof.
  unfold predict. cbn [hstack_ones bind matmul columns rows].
  destruct (Nat.eqb (S (columns a)) (length w)); cbn [bind]; [ | reflexivity ].
  cbv [matrix vector float B64.float]. rewrite !length_map.
  etransitivity.
  - exact (threshold_loop np []
             (map (logistic np)
                (map (matmul_vec np (map (cons B64.one) (rows a)) w)
                   (range (length (rows a)))))).
  - cbn [app]. now rewrite !map_map.
Qed.

Lemma predict_column (np : numpy) (a : array2) (w : matrix) :
  predict np (A2 a) (A2 (Array2 1 w)) =
    if Nat.eqb (S (columns a)) (length w)
    then Ok (A2 (Array2 1
                   (map (fun i =>
                           [threshold
                              (sigmoid np
                                 (matmul_mat np (rows (with_bias a)) w i 0))])
                      (range (length (rows a))))))
    else Raise ValueError.
Proof.
  unfold predict. cbn [hstack_ones bind matmul columns rows].
  destruct (Nat.eqb (S (columns a)) (length w)); cbn [bind]; [ | reflexivity ].
  pose proof (threshold_loop_column np []
                (map (fun i =>
                        logistic np
                          (matmul_mat np (map (cons B64.one) (rows a)) w i 0))
                   (range (length (rows a))))) as H.
  cbn [app length] in H. rewrite !length_map in H. rewrite !map_map in H.
  cbv [matrix vector float B64.float]. rewrite !length_map.
  etransitivity; [ | exact H ].
  cbn [amap len rows columns range seq map]. rewrite !length_map.
  rewrite !map_map. reflexivity.
Qed.

Lemma sigmoid_zero (np : numpy) (z : float) :
  (forall t, B64.is_zero t = true -> np_exp np t = B64.one) ->
  B64.is_zero z = true -> sigmoid np z = B64.half.
Proof.
  intros Hexp Hz. unfold sigmoid. rewrite Hexp; [ reflexivity | ].
  destruct z; try discriminate. reflexivity.
Qed.

Lemma well_shaped_rows (a : array2) (r : vector) :
  well_shaped a = true -> In r (rows a) -> length r = columns a.
Proof.
  unfold well_shaped. rewrite forallb_forall. intros H Hin.
  apply Nat.eqb_eq, H, Hin.
Qed.

(** C6 (counterexample): with weights that are all zero, a row that
    holds a NaN (which is what [np.genfromtxt] reads from a missing
    value) is put in class 0, not in class 1: the product of the row
    with the weights contains [nan * 0] and is NaN, the sigmoid of NaN
    is NaN, and [nan >= 0.5] is false.  This holds for every choice of
    the product and of the exponential that propagate NaN. *)
Lemma predict_zero_weights_class_zero :
  predict in_order (A2 (Array2 1 [[B64.nan]])) (A1 [B64.zero; B64.zero])
    = Ok (A1 [B64.zero]) /\
  (forall np : numpy,
     np_exp np B64.nan = B64.nan ->
     matmul_vec np [[B64.one; B64.nan]] [B64.zero; B64.zero] 0 = B64.nan ->
     predict np (A2 (Array2 1 [[B64.nan]])) (A1 [B64.zero; B64.zero])
     = Ok (A1 [B64.zero])).
Proof.
  assert (H : forall np : numpy,
            np_exp np B64.nan = B64.nan ->
            matmul_vec np [[B64.one; B64.nan]] [B64.zero; B64.zero] 0
              = B64.nan ->
            predict np (A2 (Array2 1 [[B64.nan]])) (A1 [B64.zero; B64.zero])
            = Ok (A1 [B64.zero])).
  { intros np Hexp Hprod. rewrite predict_vector.
    cbn [columns rows length Nat.eqb range seq map with_bias].
    rewrite Hprod. unfold sigmoid.
    change (B64.mul B64.nan B64.minus_one) with B64.nan. rewrite Hexp.
    reflexivity. }
  split; [ apply H; reflexivity | exact H ].
Qed.

(** C6 (amended): [predict] prepends the bias entry 1 to every row,
    takes the sigmoid of the product of the rows with the weights, and
    maps it to class 1 when it is at least 0.5 and to class 0 otherwise;
    there is one prediction per test row, in a vector for a vector of
    weights and in a column for a column of weights; weights that do not
    number one more than the columns raise [ValueError].  With weights
    that are all zero every prediction is class 1 provided that the
    features are finite numbers (a product of finite rows with zero
    weights being a zero, and [np.exp] mapping a zero to 1). *)
Theorem predict_thresholds_sigmoid (np : numpy) (a : array2) :
  (forall w : vector,
     S (columns a) = length w ->
     exists predictions,
       predict np (A2 a) (A1 w) = Ok (A1 predictions) /\
       length predictions = length (rows a) /\
       (forall i, (i < length (rows a))%nat ->
          nth_error predictions i =
            Some (if B64.leb B64.half
                       (sigmoid np
                          (matmul_vec np (map (cons B64.one) (rows a)) w i))
                  then B64.one else B64.zero)) /\
       ((forall t, B64.is_zero t = true -> np_exp np t = B64.one) ->
        (forall x v i,
           Forall (fun r => length r = length v) x ->
           Forall (Forall (fun u => B64.is_finite u = true)) x ->
           Forall (fun u => B64.is_zero u = true) v ->
           (i < length x)%nat ->
           B64.is_zero (matmul_vec np x v i) = true) ->
        well_shaped a = true ->
        Forall (Forall (fun u => B64.is_finite u = true)) (rows a) ->
        Forall (fun u => B64.is_zero u = true) w ->
        Forall (fun p => p = B64.one) predictions)) /\
  (forall w : matrix,
     S (columns a) = length w ->
     exists predictions,
       predict np (A2 a) (A2 (Array2 1 w)) = Ok (A2 (Array2 1 predictions)) /\
       length predictions = length (rows a) /\
       (forall i, (i < length (rows a))%nat ->
          nth_error predictions i =
            Some [if B64.leb B64.half
                       (sigmoid np
                          (matmul_mat np (map (cons B64.one) (rows a)) w i 0))
                  then B64.one else B64.zero])) /\
  (forall w : ndarray,
     S (columns a) <> len w -> predict np (A2 a) w = Raise ValueError) /\
  (forall (v : vector) (w : ndarray), predict np (A1 v) w = Raise ValueError).
Proof.
  split; [ | split; [ | split ] ].
  - intros w Hw. rewrite predict_vector.
    rewrite (proj2 (Nat.eqb_eq _ _) Hw).
    eexists. split; [ reflexivity | ].
    split; [ rewrite length_map; apply length_seq | ]. split.
    + intros i Hi. rewrite nth_error_map. unfold range.
      rewrite (nth_error_nth' (seq 0 (length (rows a))) O)
        by (rewrite length_seq; exact Hi).
      rewrite seq_nth by exact Hi. reflexivity.
    + intros Hexp Hprod Hshape Hfin Hzero.
      apply Forall_map, Forall_forall. intros i Hi. apply in_seq in Hi.
      rewrite (sigmoid_zero np); [ reflexivity | exact Hexp | ].
      apply Hprod.
      * cbn [with_bias rows]. apply Forall_map, Forall_forall.
        intros r Hr. cbn [length].
        pose proof (well_shaped_rows a r Hshape Hr) as E. list_lia.
      * cbn [with_bias rows]. apply Forall_map.
        eapply Forall_impl; [ | exact Hfin ].
        intros r Hr. constructor; [ reflexivity | exact Hr ].
      * exact Hzero.
      * cbn [with_bias rows]. rewrite length_map. list_lia.
  - intros w Hw. rewrite predict_column.
    rewrite (proj2 (Nat.eqb_eq _ _) Hw).
    eexists. split; [ reflexivity | ].
    split; [ rewrite length_map; apply length_seq | ].
    intros i Hi. rewrite nth_error_map. unfold range.
    rewrite (nth_error_nth' (seq 0 (length (rows a))) O)
      by (rewrite length_seq; exact Hi).
    rewrite seq_nth by exact Hi. reflexivity.
  - intros w Hw. unfold predict. cbn [hstack_ones bind].
    unfold matmul. cbn [columns rows].
    destruct w as [v | m]; cbn [len] in Hw;
      rewrite (proj2 (Nat.eqb_neq _ _) Hw); reflexivity.
  - reflexivity.
Qed.

Lemma predict_thresholds_sigmoid_witness :
  (exists predictions,
     predict in_order
       (A2 (Array2 2 [[B64.of_Z 1000; B64.half]; [B64.of_Z (-1000); B64.zero]]))
       (A1 [B64.zero; B64.zero; B64.zero]) = Ok (A1 predictions) /\
     Forall (fun p => p = B64.one) predictions) /\
  predict in_order
    (A2 (Array2 2 [[B64.of_Z 1000; B64.half]; [B64.of_Z (-1000); B64.zero]]))
    (A1 [B64.zero; B64.one; B64.zero]) = Ok (A1 [B64.one; B64.zero]) /\
  predict in_order
    (A2 (Array2 2 [[B64.of_Z 1000; B64.half]; [B64.of_Z (-1000); B64.zero]]))
    (A2 (Array2 1 [[B64.zero]; [B64.one]; [B64.zero]]))
  = Ok (A2 (Array2 1 [[B64.one]; [B64.zero]])).
Proof.
  destruct (predict_thresholds_sigmoid in_order
              (Array2 2 [[B64.of_Z 1000; B64.half]; [B64.of_Z (-1000); B64.zero]]))
    as (Hvec & Hcol & _ & _).
  split; [ | split ].
  - destruct (Hvec [B64.zero; B64.zero; B64.zero] eq_refl)
      as (predictions & Hp & _ & _ & Hones).
    exists predictions. split; [ exact Hp | ]. apply Hones.
    + intros t Ht. destruct t; try discriminate. reflexivity.
    + intros x v i Hlen Hfin Hzero Hi. cbn [matmul_vec in_order].
      apply in_order_dot_zero; [ | exact Hzero ].
      rewrite Forall_forall in Hfin. apply Hfin, nth_In, Hi.
    + reflexivity.
    + repeat constructor.
    + repeat constructor.
  - destruct (Hvec [B64.zero; B64.one; B64.zero] eq_refl)
      as (predictions & Hp & Hlen & Hclass & _).
    rewrite Hp. do 2 f_equal.
    destruct predictions as [ | p0 [ | p1 [ | p2 rest]]]; try discriminate.
    pose proof (Hclass 0%nat ltac:(simpl; lia)) as H0.
    pose proof (Hclass 1%nat ltac:(simpl; lia)) as H1.
    cbn [nth_error] in H0, H1. injection H0 as ->. injection H1 as ->.
    vm_compute. reflexivity.
  - destruct (Hcol [[B64.zero]; [B64.one]; [B64.zero]] eq_refl)
      as (predictions & Hp & Hlen & Hclass).
    rewrite Hp. do 3 f_equal.
    destruct predictions as [ | p0 [ | p1 [ | p2 rest]]]; try discriminate.
    pose proof (Hclass 0%nat ltac:(simpl; lia)) as H0.
    pose proof (Hclass 1%nat ltac:(simpl; lia)) as H1.
    cbn [nth_error] in H0, H1. injection H0 as ->. injection H1 as ->.
    vm_compute. reflexivity.
Defined.
(** ** Binary64 rounding

    Facts about the rounding of [SpecFloat] at [prec = 53], [emax = 1024],
    in terms of integer arithmetic on mantissas and exponents. *)

Lemma digits2_pos_size (p : positive) : digits2_pos p = Pos.size p.
Proof.
  induction p as [p IH | p IH | ]; simpl; now rewrite ?IH.
Qed.

Lemma Zdigits2_log2 (m : Z) : 0 < m -> Zdigits2 m = Z.log2 m + 1.
Proof.
  destruct m as [ | p | p]; try lia. intros _. simpl.
  rewrite digits2_pos_size. destruct p; simpl; lia.
Qed.

Lemma Zdigits2_bounds (m : Z) :
  0 < m -> 2 ^ (Zdigits2 m - 1) <= m < 2 ^ Zdigits2 m.
Proof.
  intros Hm. rewrite (Zdigits2_log2 m Hm).
  replace (Z.log2 m + 1 - 1) with (Z.log2 m) by lia.
  replace (Z.log2 m + 1) with (Z.succ (Z.log2 m)) by lia.
  apply Z.log2_spec, Hm.
Qed.

Lemma Zdigits2_unique (m d : Z) :
  2 ^ (d - 1) <= m < 2 ^ d -> 1 <= d -> Zdigits2 m = d.
Proof.
  intros Hb Hd.
  assert (Hm : 0 < m) by (pose proof (Z.pow_pos_nonneg 2 (d - 1)); lia).
  rewrite (Zdigits2_log2 m Hm).
  rewrite (Z.log2_unique m (d - 1)); [ lia | lia | ].
  replace (Z.succ (d - 1)) with d by lia. exact Hb.
Qed.

Lemma Zdigits2_pos (m : Z) : 0 < m -> 1 <= Zdigits2 m.
Proof.
  intros Hm. rewrite (Zdigits2_log2 m Hm). pose proof (Z.log2_nonneg m). lia.
Qed.

(** Shifting a mantissa to the right. *)

Lemma shr_1_m (mrs : shr_record) :
  0 <= shr_m mrs -> shr_m (shr_1 mrs) = shr_m mrs / 2.
Proof.
  destruct mrs as [m r s]. simpl. intros Hm.
  destruct m as [ | [p | p | ] | p]; try lia; simpl shr_m.
  - reflexivity.
  - rewrite Pos2Z.inj_xI.
    apply (Z.div_unique_pos _ 2 (Zpos p) 1); lia.
  - rewrite Pos2Z.inj_xO.
    apply (Z.div_unique_pos _ 2 (Zpos p) 0); lia.
  - reflexivity.
Qed.

Lemma pow2_xO (p : positive) : 2 ^ Z.pos p~0 = 2 ^ Z.pos p * 2 ^ Z.pos p.
Proof. rewrite <- Z.pow_add_r by lia. f_equal. lia. Qed.

Lemma pow2_xI (p : positive) :
  2 ^ Z.pos p~1 = 2 * (2 ^ Z.pos p * 2 ^ Z.pos p).
Proof.
  rewrite <- Z.pow_add_r, <- Z.pow_succ_r by lia. f_equal. lia.
Qed.

Lemma shr_iter_m (p : positive) :
  forall mrs,
    0 <= shr_m mrs ->
    shr_m (SpecFloat.iter_pos shr_1 p mrs) = shr_m mrs / 2 ^ Zpos p.
Proof.
  induction p as [p IH | p IH | ]; intros mrs Hm; cbn [SpecFloat.iter_pos].
  - assert (H1 : 0 <= shr_m (shr_1 mrs))
      by (rewrite shr_1_m by exact Hm; apply Z.div_pos; lia).
    assert (H2 : 0 <= shr_m (SpecFloat.iter_pos shr_1 p (shr_1 mrs)))
      by (rewrite IH by exact H1; apply Z.div_pos; lia).
    rewrite (IH _ H2), (IH _ H1), shr_1_m by exact Hm.
    rewrite !Z.div_div by lia. rewrite pow2_xI. f_equal; ring.
  - assert (H1 : 0 <= shr_m (SpecFloat.iter_pos shr_1 p mrs))
      by (rewrite IH by exact Hm; apply Z.div_pos; lia).
    rewrite (IH _ H1), (IH _ Hm).
    rewrite Z.div_div by lia. now rewrite pow2_xO.
  - rewrite shr_1_m by exact Hm. reflexivity.
Qed.

Lemma shr_record_of_loc_m (m : Z) (l : location) :
  shr_m (shr_record_of_loc m l) = m.
Proof. destruct l as [ | [ | | ]]; reflexivity. Qed.

(** [shr_fexp] shifts by the number of bits in excess of the format. *)
Lemma shr_fexp_m (m e : Z) (l : location) :
  0 <= m ->
  let n := Z.max 0 (fexp B64.prec B64.emax (Zdigits2 m + e) - e) in
  shr_m (fst (shr_fexp B64.prec B64.emax m e l)) = m / 2 ^ n /\
  snd (shr_fexp B64.prec B64.emax m e l) = e + n.
Proof.
  intros Hm n. unfold shr_fexp, shr. subst n.
  destruct (fexp B64.prec B64.emax (Zdigits2 m + e) - e) as [ | p | p] eqn:E;
    cbn [fst snd].
  - rewrite shr_record_of_loc_m, Z.max_l, Z.div_1_r by lia. split; [ reflexivity | lia ].
  - rewrite shr_iter_m by (rewrite shr_record_of_loc_m; exact Hm).
    rewrite shr_record_of_loc_m, Z.max_r by lia. split; reflexivity.
  - rewrite shr_record_of_loc_m, Z.max_l, Z.div_1_r by lia. split; [ reflexivity | lia ].
Qed.

Lemma round_nearest_even_cases (m : Z) (l : location) :
  round_nearest_even m l = m \/ round_nearest_even m l = m + 1.
Proof.
  destruct l as [ | [ | | ]]; simpl; auto. destruct (Z.even m); auto.
Qed.

(** The two roundings inside [binary_round_aux], on integers: a shift
    to the format, one step up or none, and a second shift. *)
Lemma binary_round_aux_cases (s : bool) (mx ex : Z) (lx : location) :
  0 <= mx ->
  exists m1 n1 n2,
    n1 = Z.max 0 (fexp B64.prec B64.emax (Zdigits2 mx + ex) - ex) /\
    (m1 = mx / 2 ^ n1 \/ m1 = mx / 2 ^ n1 + 1) /\
    n2 = Z.max 0 (fexp B64.prec B64.emax (Zdigits2 m1 + (ex + n1)) - (ex + n1)) /\
    binary_round_aux B64.prec B64.emax s mx ex lx =
      match m1 / 2 ^ n2 with
      | Z0 => S754_zero s
      | Zpos m =>
          if Z.leb (ex + n1 + n2) (B64.emax - B64.prec)
          then S754_finite s m (ex + n1 + n2)
          else S754_infinity s
      | Zneg _ => S754_nan
      end.
Proof.
  intros Hmx. unfold binary_round_aux.
  destruct (shr_fexp_m mx ex lx Hmx) as [Hm' He'].
  destruct (shr_fexp B64.prec B64.emax mx ex lx) as [mrs' e'].
  cbn [fst snd] in Hm', He'.
  set (n1 := Z.max 0 (fexp B64.prec B64.emax (Zdigits2 mx + ex) - ex)) in *.
  set (m1 := round_nearest_even (shr_m mrs') (loc_of_shr_record mrs')).
  assert (Hq : 0 <= mx / 2 ^ n1) by (apply Z.div_pos; lia).
  assert (Hm1 : m1 = mx / 2 ^ n1 \/ m1 = mx / 2 ^ n1 + 1).
  { unfold m1. rewrite <- Hm'. apply round_nearest_even_cases. }
  assert (Hm1' : 0 <= m1) by lia.
  destruct (shr_fexp_m m1 e' loc_Exact Hm1') as [Hm'' He''].
  destruct (shr_fexp B64.prec B64.emax m1 e' loc_Exact) as [mrs'' e''].
  cbn [fst snd] in Hm'', He''. subst e'.
  exists m1, n1,
    (Z.max 0 (fexp B64.prec B64.emax (Zdigits2 m1 + (ex + n1)) - (ex + n1))).
  split; [ reflexivity | ]. split; [ exact Hm1 | ].
  split; [ reflexivity | ].
  rewrite Hm'', He''. reflexivity.
Qed.

Lemma fexp_b64 (e : Z) : fexp B64.prec B64.emax e = Z.max (e - 53) (-1074).
Proof. reflexivity. Qed.


(** Shifting a mantissa to the left. *)

Lemma iter_xO_pow2 (m d : positive) :
  Zpos (Pos.iter xO m d) = Zpos m * 2 ^ Zpos d.
Proof.
  induction d as [ | d IH] using Pos.peano_ind.
  - simpl. lia.
  - rewrite Pos.iter_succ, Pos2Z.inj_xO, IH, Pos2Z.inj_succ, Z.pow_succ_r by lia.
    ring.
Qed.

Lemma shl_align_spec (mx : positive) (ex ex' : Z) :
  snd (shl_align mx ex ex') = Z.min ex ex' /\
  Zpos (fst (shl_align mx ex ex')) = Zpos mx * 2 ^ (ex - Z.min ex ex').
Proof.
  unfold shl_align. destruct (ex' - ex) as [ | d | d] eqn:E; cbn [fst snd].
  - replace (Z.min ex ex') with ex by lia.
    rewrite Z.sub_diag. simpl. lia.
  - replace (Z.min ex ex') with ex by lia.
    rewrite Z.sub_diag. simpl. lia.
  - replace (Z.min ex ex') with ex' by lia.
    rewrite iter_xO_pow2. replace (ex - ex') with (Zpos d) by lia.
    split; reflexivity.
Qed.

Lemma Zdigits2_shift (m k : Z) :
  0 < m -> 0 <= k -> Zdigits2 (m * 2 ^ k) = Zdigits2 m + k.
Proof.
  intros Hm Hk. pose proof (Zdigits2_bounds m Hm) as Hb.
  pose proof (Zdigits2_pos m Hm) as Hd.
  assert (Hp : 0 < 2 ^ k) by (apply Z.pow_pos_nonneg; lia).
  apply Zdigits2_unique; [ | lia ].
  replace (Zdigits2 m + k - 1) with (Zdigits2 m - 1 + k) by lia.
  rewrite !Z.pow_add_r by lia. split.
  - apply Z.mul_le_mono_nonneg_r; lia.
  - apply Z.mul_lt_mono_pos_r; lia.
Qed.




(** ** Gradient engine *)





Lemma bdim_same (d : nat) : bdim d d = Some d.
Proof. unfold bdim. now rewrite Nat.eqb_refl. Qed.

Lemma pick_in_range (d j : nat) : (j < d)%nat -> pick d j = j.
Proof.
  unfold pick. destruct (Nat.eqb_spec d 1) as [-> | _]; [ lia | reflexivity ].
Qed.

(** Entry by entry along two lists of one length. *)
Lemma map_nth_combine (op : float -> float -> float) (u v : vector) :
  length u = length v ->
  map (fun j => op (nth j u B64.nan) (nth j v B64.nan)) (seq 0 (length u))
  = map (fun p => op (fst p) (snd p)) (combine u v).
Proof.
  revert v. induction u as [ | a u IH]; intros [ | b v] Hlen;
    try discriminate; [ reflexivity | ].
  cbn [length seq map combine fst snd nth]. f_equal.
  rewrite <- seq_shift, map_map. cbn [nth].
  apply IH. now injection Hlen.
Qed.

(** An element-wise operation on two vectors of one length. *)
Lemma broadcast_same_length (op : float -> float -> float) (u v : vector) :
  length u = length v ->
  broadcast op (A1 u) (A1 v)
  = Ok (A1 (map (fun p => op (fst p) (snd p)) (combine u v))).
Proof.
  intros Hlen. unfold broadcast, broadcast2d, row_of.
  cbn [rows columns length]. rewrite bdim_same, <- Hlen, bdim_same.
  cbn [bind rows range seq map nth]. do 2 f_equal.
  rewrite <- (map_nth_combine op u v Hlen).
  apply map_ext_in. intros j Hj. apply in_seq in Hj.
  unfold at2. cbn [pick Nat.eqb nth].
  rewrite (pick_in_range (length u) j) by lia. reflexivity.
Qed.


Lemma div_by_zero_not_finite (a z : float) :
  B64.is_zero z = true -> B64.is_finite (B64.div a z) = false.
Proof.
  destruct z; try discriminate. intros _. destruct a; reflexivity.
Qed.



(** ** Hypothesis evaluator *)




Lemma Zdigits2_le (m k : Z) : 0 < m < 2 ^ k -> 0 <= k -> Zdigits2 m <= k.
Proof.
  intros [Hm Hk] Hk0. pose proof (Zdigits2_bounds m Hm) as [Hlo _].
  pose proof (Zdigits2_pos m Hm) as Hd.
  destruct (Z_le_gt_dec (Zdigits2 m) k) as [ | Hgt]; [ assumption | exfalso ].
  assert (2 ^ k <= 2 ^ (Zdigits2 m - 1)) by (apply Z.pow_le_mono_r; lia).
  lia.
Qed.








Lemma transpose_rows_length (x : array2) :
  length (rows (transpose x)) = columns x.
Proof.
  unfold transpose. cbn [rows]. rewrite length_map. apply length_seq.
Qed.

(** The hypothesis for a vector of weights: one entry per example. *)
Lemma eval_hypothesis_vector (np : numpy) (w : vector) (x : array2) :
  eval_hypothesis_function_multivariate np (A1 w) x =
    if Nat.eqb (length (rows x)) (length w)
    then Ok (A1 (map (fun i =>
                        sigmoid np (matmul_vec np (rows (transpose x)) w i))
                   (range (columns x))))
    else Raise ValueError.
Proof.
  unfold eval_hypothesis_function_multivariate, matmul.
  cbn [columns transpose].
  destruct (Nat.eqb (length (rows x)) (length w)); cbn [bind]; [ | reflexivity ].
  rewrite (transpose_rows_length x). cbn [amap]. now rewrite map_map.
Qed.



(** * Further properties *)

(** ** Data loading *)

Lemma print_loop (a b : matrix) (n : nat) :
  length a = length b ->
  forall s,
    for_each
      (fun i (_ : unit) => _ <- get a i ;; _ <- get b i ;; Ok tt)
      (seq s n) tt
    = if Nat.leb (s + n) (length a) || Nat.eqb n 0 then Ok tt
      else Raise IndexError.
Proof.
  intros Hlen. induction n as [ | n IH]; intros s.
  - cbn. now rewrite orb_true_r.
  - cbn [seq for_each]. unfold get at 1 2.
    destruct (nth_error a s) as [ra | ] eqn:Ha.
    + assert (Hs : (s < length a)%nat) by (apply nth_error_Some; congruence).
      destruct (nth_error b s) as [rb | ] eqn:Hb;
        [ | apply nth_error_None in Hb; lia ].
      cbn [bind]. rewrite IH. cbn [Nat.eqb]. rewrite orb_false_r.
      destruct n as [ | n].
      * cbn [Nat.eqb]. rewrite orb_true_r.
        replace (Nat.leb (s + 1) (length a)) with true; [ reflexivity | ].
        symmetry. apply Nat.leb_le. lia.
      * cbn [Nat.eqb]. rewrite orb_false_r.
        replace (S s + S n)%nat with (s + S (S n))%nat by lia. reflexivity.
    + apply nth_error_None in Ha. cbn [bind Nat.eqb].
      rewrite orb_false_r.
      replace (Nat.leb (s + S n) (length a)) with false; [ reflexivity | ].
      symmetry. apply Nat.leb_gt. lia.
Qed.

(** X1: with the printing flag set, [load_data] walks over all the rows
    of the file while it indexes the training rows only: whenever the
    split leaves at least one row out of the training set it stops with
    [IndexError] and returns nothing; it returns only when every row is
    a training row. *)
Theorem load_data_flag_raises (shuffle : matrix -> matrix)
  (shuffle_line : vector -> vector) (headers : vector)
  (data : matrix) (split : num) (sp : Z) :
  splitting_point (length (shuffle data)) split = Ok sp ->
  ((length (slice_to sp (shuffle data)) < length (shuffle data))%nat ->
   load_data shuffle shuffle_line (Line headers) (Rows data) true split true = Raise IndexError) /\
  (0 <= sp < Z.of_nat (length (shuffle data)) ->
   load_data shuffle shuffle_line (Line headers) (Rows data) true split true = Raise IndexError) /\
  (Z.of_nat (length (shuffle data)) <= sp ->
   exists x_training_data y_training_data,
     load_data shuffle shuffle_line (Line headers) (Rows data) true split true
       = Ok (Split x_training_data y_training_data [] []) /\
     length x_training_data = length (shuffle data)).
Proof.
  intros Hsp.
  assert (Hshort : (length (slice_to sp (shuffle data))
                    < length (shuffle data))%nat ->
                   load_data shuffle shuffle_line (Line headers) (Rows data) true split true
                   = Raise IndexError).
  { intros Hlt. unfold load_data. cbn [np_random_shuffle table_len bind]. rewrite Hsp. cbn [bind]. unfold range.
    rewrite print_loop by (now rewrite !length_map).
    rewrite length_map. cbn [Nat.add].
    match goal with
    | |- context [Nat.leb ?n ?m] =>
        replace (Nat.leb n m) with false
          by (symmetry; apply Nat.leb_gt; exact Hlt)
    end.
    match goal with
    | |- context [Nat.eqb ?n 0] =>
        replace (Nat.eqb n 0) with false
          by (symmetry; apply Nat.eqb_neq; list_lia)
    end.
    reflexivity. }
  split; [ exact Hshort | ]. split.
  - intros Hrange. apply Hshort.
    rewrite slice_to_length_nonneg by lia. lia.
  - intros Hall. unfold load_data. cbn [np_random_shuffle table_len bind]. rewrite Hsp. cbn [bind]. unfold range.
    rewrite print_loop by (now rewrite !length_map).
    rewrite length_map. cbn [Nat.add].
    assert (Hto : slice_to sp (shuffle data) = shuffle data).
    { unfold slice_to. destruct (Z.ltb_spec sp 0); [ lia | ].
      apply firstn_all2. lia. }
    assert (Hfrom : slice_from sp (shuffle data) = []).
    { unfold slice_from. destruct (Z.ltb_spec sp 0); [ lia | ].
      apply skipn_all2. lia. }
    rewrite Hto, Hfrom, Nat.leb_refl. cbn [orb bind map].
    do 2 eexists. split; [ reflexivity | ]. apply length_map.
Qed.

Lemma load_data_flag_raises_witness :
  load_data (@rev vector) (@rev float) (Line [B64.zero; B64.zero])
      (Rows [[B64.one; B64.zero]; [B64.two; B64.one]]) true (Int 50) true
  = Raise IndexError.
Proof.
  destruct (load_data_flag_raises (@rev vector) (@rev float) [B64.zero; B64.zero]
              [[B64.one; B64.zero]; [B64.two; B64.one]] (Int 50) 1)
    as (_ & H & _).
  - vm_compute. reflexivity.
  - apply H. simpl. lia.
Defined.

Lemma join_split_row (k : Z) (row : vector) :
  slice_to k row ++ slice_from k row = row.
Proof.
  unfold slice_to, slice_from. destruct (k <? 0); apply firstn_skipn.
Qed.

Lemma join_columns_slices (k : Z) (rows : matrix) :
  join_columns (map (slice_to k) rows) (map (slice_from k) rows) = rows.
Proof.
  unfold join_columns. induction rows as [ | row rows IH]; [ reflexivity | ].
  cbn [map combine fst snd]. now rewrite join_split_row, IH.
Qed.

(** X2: the split loses and repeats nothing.  Joining the feature and
    label columns again, the training rows followed by the testing rows
    are the shuffled rows of the file, hence (for a shuffle that
    permutes) the rows of the file in some order; when every row is as
    long as the header, the labels are the single last column and the
    features all the columns before it. *)
Theorem load_data_partition (shuffle : matrix -> matrix)
  (shuffle_line : vector -> vector) (headers : vector)
  (data : matrix) (split : num) (flag : bool)
  (x_training_data y_training_data x_testing_data y_testing_data : matrix) :
  load_data shuffle shuffle_line (Line headers) (Rows data) true split flag
    = Ok (Split x_training_data y_training_data x_testing_data y_testing_data) ->
  join_columns x_training_data y_training_data
    ++ join_columns x_testing_data y_testing_data = shuffle data /\
  length x_training_data = length y_training_data /\
  length x_testing_data = length y_testing_data /\
  (Permutation (shuffle data) data ->
   Permutation
     (join_columns x_training_data y_training_data
        ++ join_columns x_testing_data y_testing_data) data) /\
  (headers <> [] ->
   Forall (fun row => length row = length headers) (shuffle data) ->
   Forall (fun row => S (length row) = length headers)
     (x_training_data ++ x_testing_data) /\
   Forall (fun row => length row = 1%nat)
     (y_training_data ++ y_testing_data)).
Proof.
  unfold load_data. cbn [np_random_shuffle table_len bind].
  destruct (splitting_point (length (shuffle data)) split) as [sp | e];
    cbn [bind]; [ | discriminate ].
  match goal with
  | |- bind ?printing _ = _ -> _ => destruct printing; cbn [bind]
  end; [ | discriminate ].
  intros H. injection H as <- <- <- <-.
  rewrite !join_columns_slices.
  assert (Hjoin : slice_to sp (shuffle data) ++ slice_from sp (shuffle data)
                  = shuffle data).
  { unfold slice_to, slice_from. destruct (sp <? 0); apply firstn_skipn. }
  split; [ exact Hjoin | ]. split; [ now rewrite !length_map | ].
  split; [ now rewrite !length_map | ]. split.
  - intros Hperm. now rewrite Hjoin.
  - intros Hne Hrows.
    assert (Hh : (0 < length headers)%nat)
      by (destruct headers; [ congruence | simpl; lia ]).
    assert (Hparts : Forall (fun row => length row = length headers)
                       (slice_to sp (shuffle data) ++
                        slice_from sp (shuffle data)))
      by (rewrite Hjoin; exact Hrows).
    apply Forall_app in Hparts as [Htrain Htest].
    assert (Hx : forall row : vector,
              length row = length headers ->
              S (length (slice_to (Z.of_nat (length headers) - 1) row))
              = length headers).
    { intros row Hrow. rewrite slice_to_length_nonneg by lia. lia. }
    assert (Hy : forall row : vector,
              length row = length headers ->
              length (slice_from (Z.of_nat (length headers) - 1) row) = 1%nat).
    { intros row Hrow.
      pose proof (slice_to_from_length (Z.of_nat (length headers) - 1) row)
        as Hsum.
      rewrite slice_to_length_nonneg in Hsum by lia. lia. }
    split; apply Forall_app; split; apply Forall_map;
      first [ exact (Forall_impl _ Hx Htrain) | exact (Forall_impl _ Hx Htest)
            | exact (Forall_impl _ Hy Htrain) | exact (Forall_impl _ Hy Htest) ].
Qed.

Lemma load_data_partition_witness :
  exists a b c d,
    load_data (@rev vector) (@rev float) (Line [B64.zero; B64.zero])
      (Rows [[B64.one; B64.zero]; [B64.two; B64.one]]) true (Int 50) false
      = Ok (Split a b c d) /\
    join_columns a b ++ join_columns c d
      = [[B64.two; B64.one]; [B64.one; B64.zero]] /\
    Forall (fun row => length row = 1%nat) (b ++ d).
Proof.
  eexists _, _, _, _.
  assert (Hload : load_data (@rev vector) (@rev float) (Line [B64.zero; B64.zero])
      (Rows [[B64.one; B64.zero]; [B64.two; B64.one]]) true (Int 50) false
            = Ok (Split [[B64.two]] [[B64.one]] [[B64.one]] [[B64.zero]]))
    by (vm_compute; reflexivity).
  split; [ exact Hload | ].
  destruct (load_data_partition _ _ _ _ _ _ _ _ _ _ Hload)
    as (Hjoin & _ & _ & _ & Hcols).
  split; [ exact Hjoin | ].
  apply Hcols; [ discriminate | repeat constructor ].
Defined.

(** ** Exact rounding

    A mantissa whose bits in excess of the format are all zero is
    rounded to itself. *)

Lemma shr_1_even (k : Z) :
  0 <= k ->
  shr_1 {| shr_m := 2 * k; shr_r := false; shr_s := false |}
  = {| shr_m := k; shr_r := false; shr_s := false |}.
Proof.
  intros Hk. destruct k as [ | p | p]; try lia; reflexivity.
Qed.

Lemma shr_iter_exact (p : positive) :
  forall k,
    0 <= k ->
    SpecFloat.iter_pos shr_1 p
      {| shr_m := k * 2 ^ Zpos p; shr_r := false; shr_s := false |}
    = {| shr_m := k; shr_r := false; shr_s := false |}.
Proof.
  induction p as [p IH | p IH | ]; intros k Hk; cbn [SpecFloat.iter_pos].
  - rewrite pow2_xI.
    replace (k * (2 * (2 ^ Z.pos p * 2 ^ Z.pos p)))
      with (2 * (k * 2 ^ Z.pos p * 2 ^ Z.pos p)) by ring.
    assert (Hp : 0 < 2 ^ Z.pos p) by (apply Z.pow_pos_nonneg; lia).
    rewrite shr_1_even by (apply Z.mul_nonneg_nonneg; nia).
    rewrite IH by nia. apply IH, Hk.
  - rewrite pow2_xO.
    replace (k * (2 ^ Z.pos p * 2 ^ Z.pos p))
      with (k * 2 ^ Z.pos p * 2 ^ Z.pos p) by ring.
    assert (Hp : 0 < 2 ^ Z.pos p) by (apply Z.pow_pos_nonneg; lia).
    rewrite IH by nia. apply IH, Hk.
  - replace (k * 2 ^ 1) with (2 * k) by lia. apply shr_1_even, Hk.
Qed.

(** Rounding [q * 2^n] at exponent [e - n], for a mantissa [q] that
    fits the format at exponent [e]. *)
Lemma binary_round_aux_exact (s : bool) (q : positive) (e n : Z) :
  0 <= n ->
  fexp B64.prec B64.emax (Zdigits2 (Zpos q) + e) = e ->
  binary_round_aux B64.prec B64.emax s (Zpos q * 2 ^ n) (e - n) loc_Exact
  = if Z.leb e 971 then S754_finite s q e else S754_infinity s.
Proof.
  intros Hn Hcan. unfold binary_round_aux.
  assert (Hshift : fexp B64.prec B64.emax
                     (Zdigits2 (Zpos q * 2 ^ n) + (e - n)) - (e - n) = n).
  { rewrite Zdigits2_shift by lia.
    replace (Zdigits2 (Zpos q) + n + (e - n)) with (Zdigits2 (Zpos q) + e)
      by lia.
    rewrite Hcan. lia. }
  assert (Hfirst : shr_fexp B64.prec B64.emax (Zpos q * 2 ^ n) (e - n) loc_Exact
                   = ({| shr_m := Zpos q; shr_r := false; shr_s := false |}, e)).
  { unfold shr_fexp. rewrite Hshift. cbn [shr_record_of_loc]. unfold shr.
    destruct n as [ | p | p]; try lia.
    - rewrite Z.pow_0_r, Z.mul_1_r, Z.sub_0_r. reflexivity.
    - rewrite shr_iter_exact by lia. f_equal. lia. }
  rewrite Hfirst. cbn [shr_m loc_of_shr_record round_nearest_even].
  assert (Hsecond : shr_fexp B64.prec B64.emax (Zpos q) e loc_Exact
                    = ({| shr_m := Zpos q; shr_r := false; shr_s := false |}, e)).
  { unfold shr_fexp. rewrite Hcan, Z.sub_diag. reflexivity. }
  rewrite Hsecond. reflexivity.
Qed.

(** The conversion of a positive integer below [2^53] is exact. *)
Lemma of_Z_exact (p : positive) :
  Zpos p < 2 ^ 53 ->
  exists m e,
    B64.of_Z (Zpos p) = S754_finite false m e /\
    -52 <= e <= 0 /\ Zpos m = Zpos p * 2 ^ (- e) /\
    Zdigits2 (Zpos m) = 53.
Proof.
  intros Hp. unfold B64.of_Z, binary_normalize, binary_round.
  change (Zpos (digits2_pos p)) with (Zdigits2 (Zpos p)).
  pose proof (Zdigits2_pos (Zpos p) eq_refl) as Hd1.
  assert (Hd : Zdigits2 (Zpos p) <= 53) by (apply Zdigits2_le; lia).
  rewrite fexp_b64, Z.add_0_r.
  replace (Z.max (Zdigits2 (Zpos p) - 53) (-1074)) with (Zdigits2 (Zpos p) - 53)
    by lia.
  destruct (shl_align_spec p 0 (Zdigits2 (Zpos p) - 53)) as [He Hm].
  destruct (shl_align p 0 (Zdigits2 (Zpos p) - 53)) as [mz ez].
  cbn [fst snd] in He, Hm.
  replace (Z.min 0 (Zdigits2 (Zpos p) - 53)) with (Zdigits2 (Zpos p) - 53)
    in He, Hm by lia.
  assert (Hdz : Zdigits2 (Zpos mz) = 53).
  { rewrite Hm, Zdigits2_shift by lia. lia. }
  pose proof (binary_round_aux_exact false mz ez 0) as Hr.
  rewrite Z.pow_0_r, Z.mul_1_r, Z.sub_0_r in Hr.
  rewrite Hr; [ | lia | rewrite Hdz, fexp_b64; lia ].
  replace (ez <=? 971) with true by (symmetry; apply Z.leb_le; lia).
  exists mz, ez. split; [ reflexivity | ]. split; [ lia | ].
  split; [ | exact Hdz ]. rewrite Hm. f_equal. f_equal. lia.
Qed.

Lemma floor_of_Z (n : Z) : 0 <= n < 2 ^ 53 -> B64.floor (B64.of_Z n) = Some n.
Proof.
  intros Hn. destruct n as [ | p | p]; try lia; [ reflexivity | ].
  destruct (of_Z_exact p) as (m & e & -> & He & Hm & _); [ lia | ].
  unfold B64.floor. cbn [cond_Zopp]. f_equal.
  rewrite Z.shiftl_div_pow2 by lia. rewrite Hm.
  apply Z_div_mult. apply Z.lt_gt, Z.pow_pos_nonneg; lia.
Qed.

Lemma mul_one_exact (m : positive) (e : Z) :
  Zdigits2 (Zpos m) = 53 -> -1074 <= e <= 971 ->
  B64.mul (S754_finite false m e) B64.one = S754_finite false m e.
Proof.
  intros Hd He. unfold B64.mul, B64.one, SFmul. cbn [xorb].
  rewrite Pos2Z.inj_mul.
  change (Zpos 4503599627370496) with (2 ^ 52).
  replace (e + -52) with (e - 52) by lia.
  rewrite binary_round_aux_exact by (rewrite ?Hd, ?fexp_b64; lia).
  replace (e <=? 971) with true by (symmetry; apply Z.leb_le; lia).
  reflexivity.
Qed.

(** ** The ends of the split *)

Lemma splitting_point_100 (n : nat) :
  Z.of_nat n < 2 ^ 53 -> splitting_point n (Int 100) = Ok (Z.of_nat n).
Proof.
  intros Hn. unfold splitting_point, percent, int_truediv. cbn [Z.eqb bind].
  change (B64.div (B64.of_Z 100) (B64.of_Z 100)) with B64.one.
  unfold math_floor.
  assert (Hmul : B64.mul (B64.of_Z (Z.of_nat n)) B64.one
                 = B64.of_Z (Z.of_nat n)).
  { destruct (Z.of_nat n) as [ | p | p] eqn:E; try lia; [ reflexivity | ].
    destruct (of_Z_exact p Hn) as (m & e & -> & He & _ & Hd).
    apply mul_one_exact; [ exact Hd | lia ]. }
  rewrite Hmul, floor_of_Z by lia. reflexivity.
Qed.

Lemma splitting_point_0 (n : nat) :
  Z.of_nat n < 2 ^ 53 -> splitting_point n (Int 0) = Ok 0.
Proof.
  intros Hn. unfold splitting_point, percent, int_truediv. cbn [Z.eqb bind].
  change (B64.div (B64.of_Z 0) (B64.of_Z 100)) with B64.zero.
  destruct (Z.of_nat n) as [ | p | p] eqn:E; try lia; [ reflexivity | ].
  destruct (of_Z_exact p Hn) as (m & e & -> & _). reflexivity.
Qed.

(** X3: at the ends of the range of the training percentage the split
    of a file read as a two-dimensional array (at least two data rows
    and two columns) is exact: with split = 100 every row of the file is
    a training row and the testing set is empty; with split = 0 the
    training set is empty and every row is a testing row.  A file with
    a single data row is read as a one-dimensional array and cannot be
    split: both calls stop with [IndexError]. *)
Theorem load_data_split_ends (shuffle : matrix -> matrix)
  (shuffle_line : vector -> vector) (headers : vector)
  (data : matrix) :
  Z.of_nat (length (shuffle data)) < 2 ^ 53 ->
  load_data shuffle shuffle_line (Line headers) (Rows data) true (Int 100) false =
    Ok (Split
          (map (slice_to (Z.of_nat (length headers) - 1)) (shuffle data))
          (map (slice_from (Z.of_nat (length headers) - 1)) (shuffle data))
          [] []) /\
  load_data shuffle shuffle_line (Line headers) (Rows data) true (Int 0) false =
    Ok (Split [] []
          (map (slice_to (Z.of_nat (length headers) - 1)) (shuffle data))
          (map (slice_from (Z.of_nat (length headers) - 1)) (shuffle data))) /\
  (forall row : vector,
     Z.of_nat (length (shuffle_line row)) < 2 ^ 53 ->
     load_data shuffle shuffle_line (Line headers) (Line row) true (Int 100)
       false = Raise IndexError /\
     load_data shuffle shuffle_line (Line headers) (Line row) true (Int 0)
       false = Raise IndexError).
Proof.
  intros Hn.
  assert (Hline : forall row : vector,
            Z.of_nat (length (shuffle_line row)) < 2 ^ 53 ->
            load_data shuffle shuffle_line (Line headers) (Line row) true
              (Int 100) false = Raise IndexError /\
            load_data shuffle shuffle_line (Line headers) (Line row) true
              (Int 0) false = Raise IndexError).
  { intros row Hrow. unfold load_data.
    cbn [np_random_shuffle table_len bind].
    rewrite (splitting_point_100 _ Hrow), (splitting_point_0 _ Hrow).
    split; reflexivity. }
  unfold load_data. cbn [np_random_shuffle table_len bind].
  rewrite (splitting_point_100 _ Hn), (splitting_point_0 _ Hn). cbn [bind].
  assert (Hall : slice_to (Z.of_nat (length (shuffle data))) (shuffle data)
                 = shuffle data).
  { unfold slice_to. destruct (Z.ltb_spec (Z.of_nat (length (shuffle data))) 0);
      [ lia | ].
    rewrite Nat2Z.id. apply firstn_all. }
  assert (Hnone : slice_from (Z.of_nat (length (shuffle data))) (shuffle data)
                  = []).
  { unfold slice_from.
    destruct (Z.ltb_spec (Z.of_nat (length (shuffle data))) 0); [ lia | ].
    rewrite Nat2Z.id. apply skipn_all. }
  rewrite Hall, Hnone. split; [ reflexivity | ]. split; [ reflexivity | ].
  exact Hline.
Qed.

Lemma load_data_split_ends_witness :
  load_data (@rev vector) (@rev float) (Line [B64.zero; B64.zero])
    (Rows [[B64.one; B64.zero]; [B64.two; B64.one]]) true (Int 100) false
  = Ok (Split [[B64.two]; [B64.one]] [[B64.one]; [B64.zero]] [] []) /\
  load_data (@rev vector) (@rev float) (Line [B64.zero; B64.zero])
    (Line [B64.one; B64.zero]) true (Int 100) false
  = Raise IndexError.
Proof.
  destruct (load_data_split_ends (@rev vector) (@rev float)
              [B64.zero; B64.zero]
              [[B64.one; B64.zero]; [B64.two; B64.one]]) as (H & _ & Hline).
  - vm_compute. reflexivity.
  - split; [ exact H | ].
    apply (Hline [B64.one; B64.zero]). vm_compute. reflexivity.
Defined.
(** ** Scaler: errors and shape *)

Lemma traverse_first_failure {I A : Type} (g : I -> res A) (pre post : list I)
  (i : I) (e : exn) :
  (forall j, In j pre -> exists v, g j = Ok v) ->
  g i = Raise e ->
  traverse g (pre ++ i :: post) = Raise e.
Proof.
  intros Hpre Hi. induction pre as [ | j pre IH]; cbn [app traverse].
  - rewrite Hi. reflexivity.
  - destruct (Hpre j (or_introl eq_refl)) as [v ->]. cbn [bind].
    rewrite IH by (intros k Hk; apply Hpre; right; exact Hk). reflexivity.
Qed.

Lemma range_split (n j : nat) :
  (j < n)%nat -> range n = range j ++ j :: seq (S j) (n - S j).
Proof.
  intros Hj. unfold range.
  replace n with (j + S (n - S j))%nat at 1 by lia.
  rewrite seq_app. reflexivity.
Qed.

(** The first row of the matrix is where a bad [mean] or [std] shows. *)
Lemma scale_rows_first_failure (row0 : vector) (rest : matrix)
  (mean std : param) (j : nat) (e : exn) :
  (j < length row0)%nat ->
  (forall k, (k < j)%nat ->
     exists m s, param_get mean k = Ok m /\ param_get std k = Ok s) ->
  (m <- param_get mean j ;; s <- param_get std j ;; Ok (m, s)) = Raise e ->
  scale_rows (row0 :: rest) (length row0) mean std = Raise e.
Proof.
  intros Hj Hbefore Hat. rewrite scale_rows_traverse.
  change (range (length (row0 :: rest)))
    with ([] ++ O :: seq 1 (length rest)).
  apply traverse_first_failure; [ intros k [] | ].
  rewrite (range_split (length row0) j Hj).
  apply traverse_first_failure.
  - intros k Hk. apply in_seq in Hk. cbn [get nth_error bind].
    destruct (nth_error row0 k) as [v | ] eqn:Hv;
      [ | apply nth_error_None in Hv; lia ].
    destruct (Hbefore k) as (m & s & Hm & Hs); [ lia | ].
    unfold get. rewrite Hv, Hm, Hs. cbn [bind]. eexists. reflexivity.
  - cbn [get nth_error bind].
    destruct (nth_error row0 j) as [v | ] eqn:Hv;
      [ | apply nth_error_None in Hv; lia ].
    unfold get. rewrite Hv. cbn [bind].
    destruct (param_get mean j) as [m | e1]; cbn [bind] in *;
      [ | congruence ].
    destruct (param_get std j) as [s | e2]; cbn [bind] in *;
      [ discriminate | congruence ].
Qed.

(** X4: the errors of [scale_data].  An empty matrix raises
    [IndexError]; on a matrix with at least one entry, a call that has
    only one of [mean] and [std] as an array raises [TypeError] (the
    other one, left at 0, cannot be indexed), and a call whose mean or
    std array is shorter than the rows raises [IndexError]. *)
Theorem scale_data_errors (np_mean np_std : matrix -> vector)
  (row0 : vector) (rest : matrix) (flag : bool) :
  row0 <> [] ->
  (forall mean std,
     scale_data np_mean np_std [] flag mean std = Raise IndexError) /\
  (forall s,
     scale_data np_mean np_std (row0 :: rest) flag Default (NdArray s)
     = Raise TypeError) /\
  (forall m,
     m <> [] ->
     scale_data np_mean np_std (row0 :: rest) flag (NdArray m) Default
     = Raise TypeError) /\
  (forall m s,
     (length m < length row0)%nat \/ (length s < length row0)%nat ->
     scale_data np_mean np_std (row0 :: rest) flag (NdArray m) (NdArray s)
     = Raise IndexError).
Proof.
  intros Hrow0.
  assert (H0 : (0 < length row0)%nat)
    by (destruct row0; [ congruence | simpl; lia ]).
  split; [ reflexivity | ]. split; [ | split ].
  - intros s. unfold scale_data. cbn [get nth_error bind is_ndarray negb andb].
    rewrite (scale_rows_first_failure row0 rest Default (NdArray s) 0 TypeError);
      [ reflexivity | exact H0 | intros k Hk; lia | reflexivity ].
  - intros m Hm. unfold scale_data.
    cbn [get nth_error bind is_ndarray negb andb].
    rewrite (scale_rows_first_failure row0 rest (NdArray m) Default 0 TypeError);
      [ reflexivity | exact H0 | intros k Hk; lia | ].
    destruct m; [ congruence | reflexivity ].
  - intros m s Hshort. unfold scale_data.
    cbn [get nth_error bind is_ndarray negb andb].
    rewrite (scale_rows_first_failure row0 rest (NdArray m) (NdArray s)
               (Nat.min (length m) (length s)) IndexError);
      [ reflexivity | lia | | ].
    + intros k Hk. cbn [param_get]. unfold get.
      destruct (nth_error m k) as [a | ] eqn:Ha;
        [ | apply nth_error_None in Ha; lia ].
      destruct (nth_error s k) as [b | ] eqn:Hb;
        [ | apply nth_error_None in Hb; lia ].
      exists a, b. split; reflexivity.
    + cbn [param_get]. unfold get.
      destruct (nth_error m (Nat.min (length m) (length s))) as [a | ] eqn:Ha;
        [ | reflexivity ].
      assert ((Nat.min (length m) (length s) < length m)%nat)
        by (apply nth_error_Some; congruence).
      destruct (nth_error s (Nat.min (length m) (length s))) as [b | ] eqn:Hb;
        [ | reflexivity ].
      assert ((Nat.min (length m) (length s) < length s)%nat)
        by (apply nth_error_Some; congruence).
      lia.
Qed.

Lemma scale_data_errors_witness :
  scale_data (mean_axis0 in_order) (std_axis0 in_order) [[B64.one; B64.two]] false
    (NdArray [B64.one]) (NdArray [B64.one; B64.two])
  = Raise IndexError.
Proof.
  destruct (scale_data_errors (mean_axis0 in_order) (std_axis0 in_order) [B64.one; B64.two] [] false)
    as (_ & _ & _ & H).
  - discriminate.
  - apply H. left. simpl. lia.
Defined.

Lemma nth_error_range (n j k : nat) :
  nth_error (range n) j = Some k -> k = j /\ (j < n)%nat.
Proof.
  intros H. unfold range in H.
  assert (Hj : (j < length (seq 0 n))%nat)
    by (apply nth_error_Some; congruence).
  rewrite length_seq in Hj.
  rewrite (nth_error_nth' _ O) in H by (rewrite length_seq; exact Hj).
  rewrite seq_nth in H by exact Hj. injection H as <-. auto.
Qed.

Lemma entry_map_range_inv (F : vector -> nat -> float) (data : matrix)
  (n i j : nat) (v : float) :
  entry (map (fun row => map (F row) (range n)) data) i j = Some v ->
  exists row, nth_error data i = Some row /\ (j < n)%nat /\ v = F row j.
Proof.
  unfold entry. rewrite nth_error_map.
  destruct (nth_error data i) as [row | ]; cbn [option_map]; [ | discriminate ].
  rewrite nth_error_map.
  destruct (nth_error (range n) j) as [k | ] eqn:Hk; cbn [option_map];
    [ | discriminate ].
  apply nth_error_range in Hk as [-> Hj]. intros H. injection H as <-.
  exists row. auto.
Qed.

(** X5: on a non-empty rectangular matrix, with one mean and one std
    per column, [scale_data] raises nothing and returns a matrix of the
    same shape; where the std of a column is zero the entries of that
    column come out as infinities or NaN, not as an error. *)
Theorem scale_data_shape (np_mean np_std : matrix -> vector) (data : matrix)
  (flag : bool) (m s : vector) :
  data <> [] -> rectangular data = true ->
  length m = ncols data -> length s = ncols data ->
  exists out,
    scale_data np_mean np_std data flag (NdArray m) (NdArray s)
      = Ok (Transformed out) /\
    length out = length data /\
    Forall (fun row => length row = ncols data) out /\
    (forall i j v sj,
       entry out i j = Some v -> nth_error s j = Some sj ->
       B64.is_zero sj = true -> B64.is_finite v = false).
Proof.
  intros Hne Hrect Hm Hs. unfold scale_data.
  destruct data as [ | row0 rest]; [ congruence | ].
  cbn [get nth_error bind is_ndarray negb andb].
  change (length row0) with (ncols (row0 :: rest)).
  rewrite (scale_rows_rectangular _ m s Hrect Hm Hs). cbn [bind].
  eexists. split; [ reflexivity | ]. split; [ apply length_map | ]. split.
  - apply Forall_map, Forall_forall. intros row _.
    rewrite length_map. unfold range. apply length_seq.
  - intros i j v sj Hv Hsj Hz.
    apply (entry_map_range_inv
             (fun row j => scaled_entry (nth j row B64.nan) (nth j m B64.nan)
                             (nth j s B64.nan))) in Hv
      as (row & _ & _ & ->).
    unfold scaled_entry. apply div_by_zero_not_finite.
    pose proof (nth_error_nth s j B64.nan Hsj) as E.
    change (B64.is_zero (nth j s B64.nan) = true). now rewrite E.
Qed.

Lemma scale_data_shape_witness :
  exists out,
    scale_data (mean_axis0 in_order) (std_axis0 in_order) [[B64.one; B64.two]; [B64.two; B64.two]]
      false (NdArray [B64.one; B64.two]) (NdArray [B64.half; B64.zero])
      = Ok (Transformed out) /\
    length out = 2%nat /\
    entry out 1 1 = Some B64.nan.
Proof.
  destruct (scale_data_shape (mean_axis0 in_order) (std_axis0 in_order)
              [[B64.one; B64.two]; [B64.two; B64.two]] false
              [B64.one; B64.two] [B64.half; B64.zero])
    as (out & Hout & Hlen & _); try reflexivity; try discriminate.
  exists out. split; [ exact Hout | ]. split; [ exact Hlen | ].
  vm_compute in Hout. injection Hout as <-. reflexivity.
Defined.

(** ** Metrics of a confusion matrix *)

Lemma div_self_exact (m : positive) (e : Z) :
  Zdigits2 (Zpos m) = 53 ->
  B64.div (S754_finite false m e) (S754_finite false m e) = B64.one.
Proof.
  intros Hd. unfold B64.div, SFdiv. cbn [xorb]. unfold SFdiv_core_binary.
  rewrite Hd.
  replace (53 + e - (53 + e)) with 0 by lia.
  replace (e - e) with 0 by lia.
  change (IntDef.Z.min (fexp B64.prec B64.emax 0) 0) with (-53).
  change (0 - -53) with 53. cbv iota.
  change IntDef.Z.shiftl with Z.shiftl. change IntDef.Z.div_eucl with Z.div_eucl.
  rewrite Z.shiftl_mul_pow2 by lia.
  assert (Hq : Z.div_eucl (Zpos m * 2 ^ 53) (Zpos m) = (2 ^ 53, 0)).
  { pose proof (Z_div_mult (2 ^ 53) (Zpos m) eq_refl) as Hdiv.
    pose proof (Z_mod_mult (2 ^ 53) (Zpos m)) as Hmod.
    rewrite (Z.mul_comm (2 ^ 53)) in Hdiv, Hmod.
    unfold Z.div in Hdiv. unfold Z.modulo in Hmod.
    destruct (Z.div_eucl (Zpos m * 2 ^ 53) (Zpos m)) as [q r].
    now subst. }
  rewrite Hq. unfold new_location.
  destruct (Z.even (Zpos m)); reflexivity.
Qed.

Lemma int_truediv_self (n : Z) :
  0 < n < 2 ^ 53 -> int_truediv n n = Ok B64.one.
Proof.
  intros Hn. unfold int_truediv.
  destruct (Z.eqb_spec n 0) as [ | _]; [ lia | ].
  destruct n as [ | p | p]; try lia.
  destruct (of_Z_exact p) as (m & e & -> & _ & _ & Hd); [ lia | ].
  now rewrite div_self_exact.
Qed.

Lemma metrics_integer_denominator (tp tn fp fn : Z) :
  tp + tn + fp + fn = 0 \/ tp + fp = 0 \/ tp + fn = 0 \/ tn + fp = 0 ->
  print_performance_metrics [tp; tn; fp; fn] = Raise ZeroDivisionError.
Proof.
  intros H. unfold print_performance_metrics, int_truediv.
  cbn [get nth_error bind].
  destruct (Z.eqb_spec (tp + tn + fp + fn) 0); [ reflexivity | ].
  cbn [bind]. destruct (Z.eqb_spec (tp + fp) 0); [ reflexivity | ].
  cbn [bind]. destruct (Z.eqb_spec (tp + fn) 0); [ reflexivity | ].
  cbn [bind]. destruct (Z.eqb_spec (tn + fp) 0); [ reflexivity | ].
  lia.
Qed.

Lemma hits_nonneg (p y : list num) (k l : Z) (idx : list nat) :
  0 <= hits p y k l idx.
Proof.
  induction idx as [ | i idx IH]; cbn [hits]; [ lia | ].
  destruct (nth_error p i) as [u | ]; [ | exact IH ].
  destruct (nth_error y i) as [v | ]; [ | exact IH ].
  unfold hit. destruct (num_eqb u k && num_eqb v l); lia.
Qed.

Lemma hits_le_length (p y : list num) (k l : Z) (idx : list nat) :
  hits p y k l idx <= Z.of_nat (length idx).
Proof.
  induction idx as [ | i idx IH]; cbn [hits length]; [ lia | ].
  destruct (nth_error p i) as [u | ]; [ | lia ].
  destruct (nth_error y i) as [v | ]; [ | lia ].
  unfold hit. destruct (num_eqb u k && num_eqb v l); lia.
Qed.

(** No position has the outcome [(k, l)] when no label is [l], or no
    prediction is [k]. *)
Lemma hits_none_label (p y : list num) (k l : Z) (idx : list nat) :
  Forall (fun v => num_eqb v l = false) y -> hits p y k l idx = 0.
Proof.
  intros Hy. rewrite Forall_forall in Hy.
  induction idx as [ | i idx IH]; cbn [hits]; [ reflexivity | ].
  destruct (nth_error p i) as [u | ]; [ | exact IH ].
  destruct (nth_error y i) as [v | ] eqn:Hv; [ | exact IH ].
  unfold hit. rewrite (Hy v (nth_error_In _ _ Hv)), andb_false_r. exact IH.
Qed.

Lemma hits_none_prediction (p y : list num) (k l : Z) (idx : list nat) :
  Forall (fun u => num_eqb u k = false) p -> hits p y k l idx = 0.
Proof.
  intros Hp. rewrite Forall_forall in Hp.
  induction idx as [ | i idx IH]; cbn [hits]; [ reflexivity | ].
  destruct (nth_error p i) as [u | ] eqn:Hu; [ | exact IH ].
  destruct (nth_error y i) as [v | ]; [ | exact IH ].
  unfold hit. rewrite (Hp u (nth_error_In _ _ Hu)). exact IH.
Qed.

(** X6: the metrics need both classes.  When the confusion matrix comes
    from an empty test set, from labels none of which is 0, from labels
    none of which is 1, or from predictions none of which is 1, the
    computation of the metrics stops with [ZeroDivisionError]. *)
Theorem metrics_need_both_classes (predictions y : list num) (m : list Z) :
  get_confusion_matrix predictions y = Ok m ->
  predictions = [] \/
  Forall (fun v => num_eqb v 0 = false) y \/
  Forall (fun v => num_eqb v 1 = false) y \/
  Forall (fun u => num_eqb u 1 = false) predictions ->
  print_performance_metrics m = Raise ZeroDivisionError.
Proof.
  rewrite get_confusion_matrix_eq. cbv zeta.
  destruct (existsb _ _); [ discriminate | ].
  intros H. injection H as <-. intros Hcase.
  apply metrics_integer_denominator.
  destruct Hcase as [-> | [Hy0 | [Hy1 | Hp1]]].
  - left. reflexivity.
  - do 3 right. now rewrite !hits_none_label.
  - right. right. left. now rewrite !hits_none_label.
  - right. left. now rewrite !hits_none_prediction.
Qed.

Lemma metrics_need_both_classes_witness :
  print_performance_metrics [2; 0; 0; 1] = Raise ZeroDivisionError.
Proof.
  apply (metrics_need_both_classes [Int 1; Int 0; Int 1] [Int 1; Int 1; Int 1]).
  - reflexivity.
  - right. left. repeat constructor.
Defined.

Lemma hits_member (p y : list num) (k l : Z) (idx : list nat) (i : nat)
  (u v : num) :
  In i idx -> nth_error p i = Some u -> nth_error y i = Some v ->
  num_eqb u k = true -> num_eqb v l = true ->
  0 < hits p y k l idx.
Proof.
  intros Hin Hu Hv Hk Hl. induction idx as [ | j idx IH]; [ destruct Hin | ].
  cbn [hits]. pose proof (hits_nonneg p y k l idx) as Hpos.
  destruct Hin as [-> | Hin].
  - rewrite Hu, Hv. unfold hit. rewrite Hk, Hl. cbn [andb]. lia.
  - specialize (IH Hin).
    destruct (nth_error p j) as [a | ]; [ | exact IH ].
    destruct (nth_error y j) as [b | ]; [ | exact IH ].
    unfold hit. destruct (num_eqb a k && num_eqb b l); lia.
Qed.

Lemma hits_same_list_mixed (y : list num) (idx : list nat) :
  hits y y 1 0 idx = 0 /\ hits y y 0 1 idx = 0.
Proof.
  induction idx as [ | i idx [IH1 IH2]]; cbn [hits]; [ auto | ].
  destruct (nth_error y i) as [v | ]; [ | auto ].
  unfold hit.
  destruct (num_eqb v 1) eqn:E1.
  - rewrite (num_eqb_1_0 v E1). cbn [andb]. lia.
  - rewrite andb_false_r. cbn [andb]. lia.
Qed.

Lemma metrics_all_one (tp tn : Z) :
  0 < tp -> 0 < tn -> tp + tn < 2 ^ 53 ->
  print_performance_metrics [tp; tn; 0; 0]
  = Ok (Metrics B64.one B64.one B64.one B64.one B64.one).
Proof.
  intros Htp Htn Hsum. unfold print_performance_metrics.
  cbn [get nth_error bind].
  rewrite !Z.add_0_r.
  rewrite !int_truediv_self by lia. cbn [bind].
  reflexivity.
Qed.

(** X7: predictions that equal the labels, on a test set holding both
    classes, give a confusion matrix without false positives and false
    negatives, and the five metrics are all exactly 1.0 (for fewer than
    2^53 examples, where counts convert to floats without rounding). *)
Theorem metrics_of_perfect_predictions (y : list num) :
  (exists v, In v y /\ num_eqb v 1 = true) ->
  (exists v, In v y /\ num_eqb v 0 = true) ->
  Z.of_nat (length y) < 2 ^ 53 ->
  exists tp tn,
    get_confusion_matrix y y = Ok [tp; tn; 0; 0] /\
    0 < tp /\ 0 < tn /\
    print_performance_metrics [tp; tn; 0; 0]
    = Ok (Metrics B64.one B64.one B64.one B64.one B64.one).
Proof.
  intros (v1 & Hin1 & Hv1) (v0 & Hin0 & Hv0) Hlen.
  rewrite get_confusion_matrix_eq. cbv zeta.
  rewrite no_reads_past by lia.
  destruct (hits_same_list_mixed y (range (length y))) as [-> ->].
  apply In_nth_error in Hin1 as [i1 Hi1]. apply In_nth_error in Hin0 as [i0 Hi0].
  assert (Htp : 0 < hits y y 1 1 (range (length y))).
  { apply (hits_member y y 1 1 _ i1 v1 v1); try assumption.
    apply in_seq. assert ((i1 < length y)%nat)
      by (apply nth_error_Some; congruence). lia. }
  assert (Htn : 0 < hits y y 0 0 (range (length y))).
  { apply (hits_member y y 0 0 _ i0 v0 v0); try assumption.
    apply in_seq. assert ((i0 < length y)%nat)
      by (apply nth_error_Some; congruence). lia. }
  do 2 eexists. split; [ reflexivity | ]. split; [ exact Htp | ].
  split; [ exact Htn | ].
  apply metrics_all_one; try assumption.
  pose proof (hits_partition y y (range (length y))) as Hpart.
  destruct (hits_same_list_mixed y (range (length y))) as [E1 E2].
  rewrite E1, E2 in Hpart.
  pose proof (filter_length_le (binary_at y y) (range (length y))) as Hle.
  unfold range in Hle at 2. rewrite length_seq in Hle. lia.
Qed.

Lemma metrics_of_perfect_predictions_witness :
  exists tp tn,
    get_confusion_matrix [Int 1; Int 0; Float B64.one]
      [Int 1; Int 0; Float B64.one] = Ok [tp; tn; 0; 0] /\
    print_performance_metrics [tp; tn; 0; 0]
    = Ok (Metrics B64.one B64.one B64.one B64.one B64.one).
Proof.
  destruct (metrics_of_perfect_predictions [Int 1; Int 0; Float B64.one])
    as (tp & tn & Hm & _ & _ & Hr).
  - exists (Int 1). split; [ left; reflexivity | reflexivity ].
  - exists (Int 0). split; [ right; left; reflexivity | reflexivity ].
  - vm_compute. reflexivity.
  - exists tp, tn. split; [ exact Hm | exact Hr ].
Defined.


(** ** Predictor and evaluator together *)

Lemma threshold_class (p : float) :
  threshold p = B64.one \/ threshold p = B64.zero.
Proof.
  unfold threshold. destruct (B64.leb B64.half p); auto.
Qed.

Lemma threshold_nan (p : float) : is_nan p = true -> threshold p = B64.zero.
Proof.
  destruct p; try discriminate. reflexivity.
Qed.

Lemma class_in01 (p : float) :
  p = B64.one \/ p = B64.zero -> in01 (Float p) = true.
Proof.
  intros [-> | ->]; reflexivity.
Qed.

(** X8: whatever the sigmoid returns, [predict] hands back only the two
    classes 1.0 and 0.0, one per test row; a row whose sigmoid is NaN is
    put in class 0 without any error.  Given to [get_confusion_matrix]
    with as many labels in {0, 1}, the predictions (a vector, for a
    vector of weights) are all counted: the four counters add up to the
    number of test rows. *)
Theorem predict_classes_all_counted (np : numpy) (a : array2)
  (w : vector) (y : list num) (predictions : vector) :
  predict np (A2 a) (A1 w) = Ok (A1 predictions) ->
  length y = length (rows a) ->
  Forall (fun v => in01 v = true) y ->
  length predictions = length (rows a) /\
  Forall (fun p => p = B64.one \/ p = B64.zero) predictions /\
  (forall i,
     (i < length (rows a))%nat ->
     is_nan (sigmoid np (matmul_vec np (map (cons B64.one) (rows a)) w i))
       = true ->
     nth_error predictions i = Some B64.zero) /\
  exists tp tn fp fn,
    get_confusion_matrix (map Float predictions) y = Ok [tp; tn; fp; fn] /\
    tp + tn + fp + fn = Z.of_nat (length (rows a)).
Proof.
  intros Hp Hlen Hy. rewrite predict_vector in Hp.
  destruct (Nat.eqb (S (columns a)) (length w)); [ | discriminate ].
  injection Hp as <-.
  set (score := fun i =>
         sigmoid np (matmul_vec np (rows (with_bias a)) w i)).
  assert (Hclass :
    Forall (fun p => p = B64.one \/ p = B64.zero)
      (map (fun i => threshold (score i)) (range (length (rows a))))).
  { apply Forall_map, Forall_forall. intros i _. apply threshold_class. }
  assert (Hn : length (map (fun i => threshold (score i))
                         (range (length (rows a)))) = length (rows a))
    by (rewrite length_map; apply length_seq).
  split; [ exact Hn | ]. split; [ exact Hclass | ]. split.
  - intros i Hi Hnan. rewrite nth_error_map. unfold range.
    rewrite (nth_error_nth' (seq 0 (length (rows a))) O)
      by (rewrite length_seq; exact Hi).
    rewrite seq_nth by exact Hi. cbn [option_map Nat.add].
    unfold score. cbn [with_bias rows]. now rewrite (threshold_nan _ Hnan).
  - set (p := map Float
                (map (fun i => threshold (score i))
                   (range (length (rows a))))).
    change (exists tp tn fp fn,
              get_confusion_matrix p y = Ok [tp; tn; fp; fn] /\
              tp + tn + fp + fn = Z.of_nat (length (rows a))).
    assert (Hpl : length p = length y).
    { unfold p. rewrite length_map. rewrite Hn. now symmetry. }
    rewrite get_confusion_matrix_eq. cbv zeta.
    rewrite no_reads_past by lia.
    do 4 eexists. split; [ reflexivity | ].
    rewrite hits_partition.
    assert (Hall : forallb (binary_at p y) (range (length p)) = true).
    { apply all_binary_at; [ exact Hpl | ]. split; [ | exact Hy ].
      unfold p. apply Forall_map.
      eapply Forall_impl; [ | exact Hclass ].
      intros c Hc. apply class_in01, Hc. }
    apply filter_length_all in Hall. rewrite Hall.
    unfold range at 1. rewrite length_seq, Hpl, Hlen. reflexivity.
Qed.

Lemma predict_classes_all_counted_witness :
  exists tp tn fp fn,
    predict in_order
      (A2 (Array2 2 [[B64.of_Z 1000; B64.half]; [B64.nan; B64.zero]]))
      (A1 [B64.zero; B64.one; B64.zero]) = Ok (A1 [B64.one; B64.zero]) /\
    get_confusion_matrix (map Float [B64.one; B64.zero]) [Int 1; Int 1]
      = Ok [tp; tn; fp; fn] /\
    tp + tn + fp + fn = 2.
Proof.
  assert (Hp : predict in_order
                 (A2 (Array2 2 [[B64.of_Z 1000; B64.half]; [B64.nan; B64.zero]]))
                 (A1 [B64.zero; B64.one; B64.zero])
               = Ok (A1 [B64.one; B64.zero])) by (vm_compute; reflexivity).
  destruct (predict_classes_all_counted in_order
              (Array2 2 [[B64.of_Z 1000; B64.half]; [B64.nan; B64.zero]])
              [B64.zero; B64.one; B64.zero] [Int 1; Int 1]
              [B64.one; B64.zero] Hp eq_refl)
    as (_ & _ & _ & tp & tn & fp & fn & Hm & Hsum).
  - repeat constructor.
  - exists tp, tn, fp, fn. split; [ exact Hp | ]. split; [ exact Hm | exact Hsum ].
Defined.

(** ** The stopping criterion of the trainer *)

Lemma binary_round_aux_not_negative (mx ex : Z) (lx : location) :
  0 <= mx ->
  not_negative (binary_round_aux B64.prec B64.emax false mx ex lx) = true.
Proof.
  intros Hmx.
  destruct (binary_round_aux_cases false mx ex lx Hmx)
    as (m1 & n1 & n2 & _ & _ & _ & ->).
  destruct (m1 / 2 ^ n2); [ reflexivity | | reflexivity ].
  destruct (Z.leb (ex + n1 + n2) (B64.emax - B64.prec)); reflexivity.
Qed.

Lemma sqrt_not_negative (v : float) : not_negative (B64.sqrt v) = true.
Proof.
  destruct v as [s | [ | ] | | [ | ] m e]; try reflexivity.
  unfold B64.sqrt, SFsqrt, SFsqrt_core_binary.
  match goal with
  | |- context [Z.sqrtrem ?t] =>
      pose proof (Z.sqrtrem_sqrt t) as Hq;
      pose proof (Z.sqrt_nonneg t) as Hpos;
      destruct (Z.sqrtrem t) as [q r]
  end.
  cbn [fst] in Hq. subst q.
  apply binary_round_aux_not_negative. exact Hpos.
Qed.

Lemma ltb_not_negative_not_positive (l2 c : float) :
  not_negative l2 = true -> not_positive c = true -> B64.ltb l2 c = false.
Proof.
  destruct l2 as [ [ | ] | [ | ] | | [ | ] m1 e1];
    destruct c as [ [ | ] | [ | ] | | [ | ] m2 e2];
    try discriminate; reflexivity.
Qed.

Lemma l2_norm_not_negative (np : numpy) (gradient : ndarray) :
  not_negative (compute_L2_norm_multivariate np gradient) = true.
Proof.
  unfold compute_L2_norm_multivariate. apply sqrt_not_negative.
Qed.

Lemma descent_step_norm (np : numpy) (x : array2) (y : ndarray) (n : Z)
  (learning_rate : float) (w w' : ndarray) (l2 : float) :
  descent_step np x y n learning_rate w = Ok (w', l2) ->
  exists gradient, l2 = compute_L2_norm_multivariate np gradient.
Proof.
  unfold descent_step.
  destruct (eval_hypothesis_function_multivariate np w x) as [h | e];
    cbn [bind]; [ | discriminate ].
  destruct (compute_gradient_of_cost_function_multivariate np h x y n)
    as [g | e]; cbn [bind]; [ | discriminate ].
  destruct (np_subtract w (amap (B64.mul learning_rate) g)) as [v | e];
    cbn [bind]; [ | discriminate ].
  intros H. injection H as _ <-. now exists g.
Qed.

Lemma descent_loop_not_positive (np : numpy) (x : array2) (y : ndarray)
  (n : Z) (learning_rate stopping_criteria : float) :
  not_positive stopping_criteria = true ->
  forall fuel w,
    descent_loop np fuel x y n learning_rate stopping_criteria w = None \/
    exists e,
      descent_loop np fuel x y n learning_rate stopping_criteria w
        = Some (Raise e).
Proof.
  intros Hc fuel. induction fuel as [ | fuel IH]; intros w; [ now left | ].
  cbn [descent_loop].
  destruct (descent_step np x y n learning_rate w) as [[w' l2] | e] eqn:Hs;
    [ | right; now exists e ].
  apply descent_step_norm in Hs as (gradient & ->).
  rewrite (ltb_not_negative_not_positive _ _
             (l2_norm_not_negative np gradient) Hc).
  apply IH.
Qed.

(** X9: with a stopping criterion that is zero, negative or NaN the
    trainer never returns weights, whatever the shapes of its
    arguments: however many iterations it is given, the loop is still
    running or has stopped on an error. *)
Theorem gradient_descent_needs_positive_criterion (np : numpy)
  (fuel : nat) (x y w : ndarray) (learning_rate stopping_criteria : float) :
  not_positive stopping_criteria = true ->
  (forall gradient,
     B64.ltb (compute_L2_norm_multivariate np gradient) stopping_criteria
     = false) /\
  (gradient_descent np fuel x y w learning_rate stopping_criteria = None \/
   exists e,
     gradient_descent np fuel x y w learning_rate stopping_criteria
       = Some (Raise e)).
Proof.
  intros Hc. split.
  - intros gradient.
    apply ltb_not_negative_not_positive;
      [ apply l2_norm_not_negative | exact Hc ].
  - unfold gradient_descent.
    destruct (hstack_ones x) as [x1 | e]; [ | right; now exists e ].
    cbv zeta. apply descent_loop_not_positive. exact Hc.
Qed.

Lemma gradient_descent_needs_positive_criterion_witness :
  gradient_descent in_order 25 (A2 (Array2 1 [[B64.one]; [B64.two]]))
    (A1 [B64.one; B64.zero]) (A1 [B64.zero; B64.zero]) one_tenth B64.zero
  = None.
Proof.
  destruct (gradient_descent_needs_positive_criterion in_order 25
              (A2 (Array2 1 [[B64.one]; [B64.two]]))
              (A1 [B64.one; B64.zero]) (A1 [B64.zero; B64.zero])
              one_tenth B64.zero)
    as (_ & [H | (e & H)]).
  - reflexivity.
  - exact H.
  - vm_compute in H. discriminate H.
Defined.

(** ** The L2 norm *)

Lemma add_nan_r (a : float) : B64.add a B64.nan = B64.nan.
Proof. destruct a; reflexivity. Qed.

Lemma fold_add_nan (l : vector) : fold_left B64.add l B64.nan = B64.nan.
Proof.
  induction l as [ | a l IH]; [ reflexivity | ]. cbn [fold_left]. exact IH.
Qed.

Lemma fold_add_with_nan (l : vector) :
  Exists (fun g => is_nan g = true) l ->
  forall a, fold_left B64.add l a = B64.nan.
Proof.
  induction 1 as [g l Hg | g l _ IH]; intros a; cbn [fold_left].
  - destruct g; try discriminate. rewrite add_nan_r. apply fold_add_nan.
  - apply IH.
Qed.

Lemma in_order_sum_with_nan (l : vector) :
  Exists (fun g => is_nan g = true) l -> in_order_sum l = B64.nan.
Proof.
  intros H. destruct l as [ | a0 rest]; [ inversion H | ].
  cbn [in_order_sum]. inversion H as [g l Hg | g l Hrest]; subst.
  - destruct a0; try discriminate. apply fold_add_nan.
  - now apply fold_add_with_nan.
Qed.

Lemma fold_add_zeros (l : vector) :
  Forall (fun g => g = B64.zero) l -> fold_left B64.add l B64.zero = B64.zero.
Proof.
  induction 1 as [ | g l -> _ IH]; [ reflexivity | ].
  cbn [fold_left]. exact IH.
Qed.

Lemma in_order_sum_zeros (l : vector) :
  Forall (fun g => g = B64.zero) l -> in_order_sum l = B64.zero.
Proof.
  intros H. destruct l as [ | a0 rest]; [ reflexivity | ].
  cbn [in_order_sum]. inversion H as [ | g l Ha Hrest]; subst.
  now apply fold_add_zeros.
Qed.

Lemma entries_amap (f : float -> float) (a : ndarray) :
  entries (amap f a) = map f (entries a).
Proof.
  destruct a as [v | [c m]]; cbn [amap entries rows]; [ reflexivity | ].
  now rewrite concat_map.
Qed.

(** X10: the L2 norm of a gradient is never below zero (it is a zero, a
    positive number, the positive infinity or NaN), whatever the sum of
    the squares comes out as.  It is exactly 0.0 for an empty gradient
    and for one that holds only zeros of either sign, a sum of entries
    that are all 0.0 being 0.0; and it is NaN as soon as one entry is
    NaN, a sum with a NaN entry being NaN, in which case no stopping
    criterion is ever met. *)
Theorem l2_norm_range (np : numpy) (gradient : ndarray) :
  not_negative (compute_L2_norm_multivariate np gradient) = true /\
  B64.ltb (compute_L2_norm_multivariate np gradient) B64.zero = false /\
  ((forall a, Forall (fun v => v = B64.zero) (entries a) ->
              np_sum np a = B64.zero) ->
   Forall (fun g => B64.is_zero g = true) (entries gradient) ->
   compute_L2_norm_multivariate np gradient = B64.zero) /\
  ((forall a, Exists (fun v => is_nan v = true) (entries a) ->
              np_sum np a = B64.nan) ->
   Exists (fun g => is_nan g = true) (entries gradient) ->
   compute_L2_norm_multivariate np gradient = B64.nan /\
   forall stopping_criteria,
     B64.ltb (compute_L2_norm_multivariate np gradient) stopping_criteria
     = false).
Proof.
  split; [ apply l2_norm_not_negative | ]. split; [ | split ].
  - apply ltb_not_negative_not_positive;
      [ apply l2_norm_not_negative | reflexivity ].
  - intros Hsum Hz. unfold compute_L2_norm_multivariate.
    rewrite Hsum; [ reflexivity | ].
    rewrite entries_amap. apply Forall_map.
    eapply Forall_impl; [ | exact Hz ].
    intros g Hg. destruct g as [ [ | ] | | | ]; try discriminate; reflexivity.
  - intros Hsum Hn.
    assert (E : compute_L2_norm_multivariate np gradient = B64.nan).
    { unfold compute_L2_norm_multivariate.
      rewrite Hsum; [ reflexivity | ].
      rewrite entries_amap.
      apply Exists_exists in Hn as (g & Hin & Hg).
      apply Exists_exists. exists (B64.mul g g). split.
      - apply in_map_iff. exists g. auto.
      - destruct g; try discriminate. reflexivity. }
    split; [ exact E | ]. intros c. rewrite E. reflexivity.
Qed.

Lemma l2_norm_range_witness :
  compute_L2_norm_multivariate in_order (A1 [B64.zero; S754_zero true])
    = B64.zero /\
  compute_L2_norm_multivariate in_order
    (A2 (Array2 1 [[B64.one]; [B64.nan]])) = B64.nan /\
  compute_L2_norm_multivariate in_order (A1 [B64.of_Z 3; B64.of_Z (-4)])
    = B64.of_Z 5.
Proof.
  split; [ | split ].
  - destruct (l2_norm_range in_order (A1 [B64.zero; S754_zero true]))
      as (_ & _ & H & _).
    apply H.
    + intros a Ha. cbn [np_sum in_order]. now apply in_order_sum_zeros.
    + repeat constructor.
  - destruct (l2_norm_range in_order (A2 (Array2 1 [[B64.one]; [B64.nan]])))
      as (_ & _ & _ & H).
    apply H.
    + intros a Ha. cbn [np_sum in_order]. now apply in_order_sum_with_nan.
    + apply Exists_cons_tl, Exists_cons_hd. reflexivity.
  - vm_compute. reflexivity.
Defined.

(** ** Predictor and hypothesis evaluator *)

Lemma map_nth_id {A : Type} (l : list A) (d : A) :
  map (fun i => nth i l d) (seq 0 (length l)) = l.
Proof.
  pose proof (map_nth_range (fun a : A => a) l d) as H.
  unfold range in H. rewrite map_id in H. exact H.
Qed.

(** Transposing twice gives the array back. *)
Lemma transpose_involutive (x : array2) :
  well_shaped x = true -> transpose (transpose x) = x.
Proof.
  intros Hshape. destruct x as [c m]. unfold transpose.
  cbn [rows columns] in *. rewrite length_map, length_seq. f_equal.
  transitivity (map (fun i => nth i m []) (seq 0 (length m)));
    [ | apply map_nth_id ].
  apply map_ext_in. intros i Hi. apply in_seq in Hi.
  rewrite map_map.
  assert (Hrow : length (nth i m []) = c).
  { apply (well_shaped_rows (Array2 c m) _ Hshape). cbn [rows].
    apply nth_In. lia. }
  transitivity (map (fun j => nth j (nth i m []) B64.nan)
                  (seq 0 (length (nth i m []))));
    [ | apply map_nth_id ].
  rewrite Hrow. apply map_ext. intros j.
  destruct j as [ | j].
  - exact (map_nth (fun r : vector => nth O r B64.nan) m [] i).
  - exact (map_nth (fun r : vector => nth (S j) r B64.nan) m [] i).
Qed.

Lemma forallb_map_compose {A B : Type} (f : B -> bool) (g : A -> B)
  (l : list A) :
  forallb f (map g l) = forallb (fun a => f (g a)) l.
Proof.
  induction l as [ | a l IH]; [ reflexivity | ].
  cbn [map forallb]. now rewrite IH.
Qed.

Lemma with_bias_well_shaped (a : array2) :
  well_shaped a = true -> well_shaped (with_bias a) = true.
Proof.
  unfold well_shaped, with_bias. cbn [rows columns]. intros H.
  rewrite forallb_map_compose. exact H.
Qed.

(** X11: the predictor and the trainer evaluate one and the same
    hypothesis.  On a test matrix, with a vector or a column of
    weights, [predict] is the hypothesis function of the trainer,
    applied to the transposed bias-augmented matrix that
    [gradient_descent] builds, followed by the threshold at 0.5; it
    raises exactly when the hypothesis function does. *)
Theorem predict_thresholds_hypothesis (np : numpy) (a : array2) :
  well_shaped a = true ->
  (forall w : vector,
     predict np (A2 a) (A1 w) =
       (hypothesis <- eval_hypothesis_function_multivariate np (A1 w)
                        (transpose (with_bias a)) ;;
        Ok (amap threshold hypothesis))) /\
  (forall w : matrix,
     predict np (A2 a) (A2 (Array2 1 w)) =
       (hypothesis <- eval_hypothesis_function_multivariate np
                        (A2 (Array2 1 w)) (transpose (with_bias a)) ;;
        Ok (amap threshold hypothesis))).
Proof.
  intros Hshape.
  pose proof (transpose_involutive (with_bias a)
                (with_bias_well_shaped a Hshape)) as Hinv.
  split; intros w.
  - rewrite predict_vector.
    unfold eval_hypothesis_function_multivariate. rewrite Hinv.
    unfold matmul. cbn [with_bias columns rows].
    destruct (Nat.eqb (S (columns a)) (length w)); cbn [bind]; [ | reflexivity ].
    cbn [amap]. rewrite length_map, !map_map. reflexivity.
  - rewrite predict_column.
    unfold eval_hypothesis_function_multivariate. rewrite Hinv.
    unfold matmul. cbn [with_bias columns rows].
    destruct (Nat.eqb (S (columns a)) (length w)); cbn [bind]; [ | reflexivity ].
    cbn [amap rows columns range seq map]. rewrite length_map, !map_map.
    reflexivity.
Qed.

Lemma predict_thresholds_hypothesis_witness :
  predict in_order
    (A2 (Array2 2 [[B64.of_Z 1000; B64.zero]; [B64.of_Z (-1000); B64.one]]))
    (A1 [B64.zero; B64.one; B64.zero])
  = Ok (A1 [B64.one; B64.zero]) /\
  eval_hypothesis_function_multivariate in_order
    (A1 [B64.zero; B64.one; B64.zero])
    (Array2 2 [[B64.one; B64.one]; [B64.of_Z 1000; B64.of_Z (-1000)];
               [B64.zero; B64.one]])
  = Ok (A1 [B64.one; B64.zero]).
Proof.
  assert (He : eval_hypothesis_function_multivariate in_order
                 (A1 [B64.zero; B64.one; B64.zero])
                 (Array2 2 [[B64.one; B64.one];
                            [B64.of_Z 1000; B64.of_Z (-1000)];
                            [B64.zero; B64.one]])
               = Ok (A1 [B64.one; B64.zero]))
    by (vm_compute; reflexivity).
  split; [ | exact He ].
  destruct (predict_thresholds_hypothesis in_order
              (Array2 2 [[B64.of_Z 1000; B64.zero];
                         [B64.of_Z (-1000); B64.one]])
              eq_refl) as [H _].
  rewrite H.
  change (transpose
            (with_bias
               (Array2 2 [[B64.of_Z 1000; B64.zero];
                          [B64.of_Z (-1000); B64.one]])))
    with (Array2 2 [[B64.one; B64.one]; [B64.of_Z 1000; B64.of_Z (-1000)];
                    [B64.zero; B64.one]]).
  rewrite He. reflexivity.
Defined.

(** ** Shapes that the trainer rejects *)

Lemma broadcast_vectors_mismatch (op : float -> float -> float)
  (u v : vector) :
  length u <> length v -> length v <> 1%nat ->
  broadcast op (A1 u) (A1 v) = Raise ValueError \/
  (length u = 1%nat /\
   exists e, broadcast op (A1 u) (A1 v) = Ok (A1 e) /\ length e = length v).
Proof.
  intros Huv Hv. unfold broadcast, broadcast2d, row_of.
  cbn [rows columns length]. rewrite bdim_same. unfold bdim.
  rewrite (proj2 (Nat.eqb_neq _ _) Huv).
  destruct (Nat.eqb_spec (length u) 1) as [Hu | Hu].
  - right. split; [ exact Hu | ]. cbn [bind rows range seq map nth].
    eexists. split; [ reflexivity | ].
    rewrite length_map. apply length_seq.
  - left. rewrite (proj2 (Nat.eqb_neq _ _) Hv). reflexivity.
Qed.

Lemma transpose_columns (x : array2) :
  columns (transpose x) = length (rows x).
Proof. reflexivity. Qed.

(** X12: shapes the trainer rejects.  A one-dimensional training
    matrix cannot take the column of ones.  On a two-dimensional one,
    the first iteration stops with [ValueError] when the weights, vector
    or matrix, do not number one more than the feature columns; and,
    for weights and labels that are both vectors, when the labels number
    neither the rows nor one.  Nothing is returned and no further
    iteration runs. *)
Theorem gradient_descent_shape_errors (np : numpy) (fuel : nat)
  (a : array2) (learning_rate stopping_criteria : float) :
  (forall (v : vector) (y w : ndarray),
     gradient_descent np fuel (A1 v) y w learning_rate stopping_criteria
     = Some (Raise ValueError)) /\
  (forall y w : ndarray,
     S (columns a) <> len w ->
     gradient_descent np (S fuel) (A2 a) y w learning_rate stopping_criteria
     = Some (Raise ValueError)) /\
  (forall y w : vector,
     S (columns a) = length w ->
     length y <> length (rows a) -> length y <> 1%nat ->
     gradient_descent np (S fuel) (A2 a) (A1 y) (A1 w) learning_rate
       stopping_criteria
     = Some (Raise ValueError)).
Proof.
  split; [ reflexivity | ]. split.
  - intros y w Hw. unfold gradient_descent. cbn [hstack_ones].
    cbv zeta. cbn [descent_loop]. unfold descent_step.
    unfold eval_hypothesis_function_multivariate, matmul.
    rewrite transpose_columns, transpose_rows_length. cbn [columns].
    destruct w as [v | m]; cbn [len] in Hw;
      rewrite (proj2 (Nat.eqb_neq _ _) Hw); reflexivity.
  - intros y w Hw Hy Hy1. unfold gradient_descent. cbn [hstack_ones].
    cbv zeta. cbn [descent_loop]. unfold descent_step.
    rewrite eval_hypothesis_vector.
    rewrite transpose_rows_length. cbn [columns].
    rewrite (proj2 (Nat.eqb_eq _ _) Hw). cbn [bind].
    unfold compute_gradient_of_cost_function_multivariate, np_subtract.
    match goal with
    | |- context [broadcast B64.sub (A1 ?t) (A1 y)] => set (h := t)
    end.
    assert (Hh : length h = length (rows a)).
    { unfold h. rewrite length_map. unfold range. rewrite length_seq.
      cbn [transpose columns with_bias rows]. apply length_map. }
    destruct (broadcast_vectors_mismatch B64.sub h y)
      as [-> | (Hone & e & -> & He)]; [ list_lia | exact Hy1 | reflexivity | ].
    cbn [bind]. unfold matmul.
    match goal with
    | |- context [Nat.eqb ?c (length e)] =>
        assert (E : Nat.eqb c (length e) = false)
          by (apply Nat.eqb_neq; cbn [transpose columns with_bias rows];
              rewrite length_map; list_lia);
        rewrite E
    end.
    reflexivity.
Qed.

Lemma gradient_descent_shape_errors_witness :
  gradient_descent in_order 1 (A2 (Array2 1 [[B64.one]; [B64.two]]))
    (A1 [B64.one; B64.zero; B64.one]) (A1 [B64.zero; B64.zero])
    one_tenth one_tenth
  = Some (Raise ValueError) /\
  gradient_descent in_order 1 (A2 (Array2 1 [[B64.one]; [B64.two]]))
    (A1 [B64.one; B64.zero]) (A2 (Array2 1 [[B64.zero]]))
    one_tenth one_tenth
  = Some (Raise ValueError).
Proof.
  destruct (gradient_descent_shape_errors in_order 0
              (Array2 1 [[B64.one]; [B64.two]]) one_tenth one_tenth)
    as (_ & Hw & Hy).
  split.
  - apply Hy; [ reflexivity | simpl; lia | simpl; lia ].
  - apply Hw. simpl. lia.
Defined.

(** ** The dimension of the weights *)

Lemma broadcast_vectors_ok (op : float -> float -> float) (u v : vector)
  (r : ndarray) :
  broadcast op (A1 u) (A1 v) = Ok r -> exists e, r = A1 e.
Proof.
  unfold broadcast.
  destruct (broadcast2d op (row_of u) (row_of v)) as [b | e]; cbn [bind];
    [ | discriminate ].
  intros H. injection H as <-. eexists. reflexivity.
Qed.

Lemma descent_step_dimension (np : numpy) (a : array2) (y w : vector)
  (n : Z) (learning_rate : float) (w' : ndarray) (l2 : float) :
  descent_step np (transpose (with_bias a)) (A1 y) n learning_rate (A1 w)
    = Ok (w', l2) ->
  length w = S (columns a) /\
  exists v', w' = A1 v' /\ length v' = S (columns a).
Proof.
  unfold descent_step. rewrite eval_hypothesis_vector.
  rewrite transpose_rows_length. cbn [with_bias columns].
  destruct (Nat.eqb_spec (S (columns a)) (length w)) as [Hw | _];
    cbn [bind]; [ | discriminate ].
  unfold compute_gradient_of_cost_function_multivariate, np_subtract.
  match goal with
  | |- context [broadcast B64.sub (A1 ?h) (A1 y)] =>
      destruct (broadcast B64.sub (A1 h) (A1 y)) as [error | e] eqn:Herr
  end; cbn [bind]; [ | discriminate ].
  apply broadcast_vectors_ok in Herr as (e & ->).
  unfold matmul.
  destruct (Nat.eqb (columns (transpose (with_bias a))) (length e));
    cbn [bind]; [ | discriminate ].
  cbn [amap].
  match goal with
  | |- context [broadcast B64.sub (A1 w) (A1 ?t)] => set (g := t)
  end.
  assert (Hg : length g = S (columns a)).
  { unfold g. rewrite !length_map. unfold range. rewrite length_seq.
    apply (transpose_rows_length (with_bias a)). }
  rewrite (broadcast_same_length B64.sub w g) by list_lia. cbn [bind].
  intros H. injection H as <- _. split; [ list_lia | ].
  eexists. split; [ reflexivity | ].
  rewrite length_map, length_combine. list_lia.
Qed.

Lemma descent_loop_dimension (np : numpy) (a : array2) (y : vector)
  (n : Z) (learning_rate stopping_criteria : float) :
  forall fuel w w',
    descent_loop np fuel (transpose (with_bias a)) (A1 y) n learning_rate
      stopping_criteria (A1 w) = Some (Ok w') ->
    length w = S (columns a) /\
    exists v', w' = A1 v' /\ length v' = S (columns a).
Proof.
  intros fuel.
  induction fuel as [ | fuel IH]; intros w w' H; [ discriminate | ].
  cbn [descent_loop] in H.
  destruct (descent_step np (transpose (with_bias a)) (A1 y) n
              learning_rate (A1 w)) as [[w1 l2] | e] eqn:Hs;
    [ | discriminate ].
  destruct (descent_step_dimension np a y w n learning_rate w1 l2 Hs)
    as (Hw & v1 & -> & Hv1).
  split; [ exact Hw | ].
  destruct (B64.ltb l2 stopping_criteria).
  - injection H as <-. exists v1. auto.
  - apply (IH v1 w' H).
Qed.

(** X17: the trainer keeps the dimension of the weights when weights
    and labels are both vectors.  Whenever [gradient_descent] then
    returns, the initial weights and the returned ones are vectors with
    one entry per feature column plus one for the bias. *)
Theorem gradient_descent_weights_dimension (np : numpy) (fuel : nat)
  (a : array2) (y w : vector) (w' : ndarray)
  (learning_rate stopping_criteria : float) :
  gradient_descent np fuel (A2 a) (A1 y) (A1 w) learning_rate
    stopping_criteria = Some (Ok w') ->
  length w = S (columns a) /\
  exists v', w' = A1 v' /\ length v' = S (columns a).
Proof.
  unfold gradient_descent. cbn [hstack_ones]. cbv zeta.
  apply descent_loop_dimension.
Qed.

Lemma gradient_descent_weights_dimension_witness :
  exists v',
    gradient_descent in_order 5 (A2 (Array2 1 [[B64.of_Z 1000]]))
      (A1 [B64.zero]) (A1 [B64.zero; B64.one]) B64.one B64.one
    = Some (Ok (A1 v')) /\
    length v' = 2%nat.
Proof.
  destruct (gradient_descent_weights_dimension in_order 5
              (Array2 1 [[B64.of_Z 1000]]) [B64.zero] [B64.zero; B64.one]
              (A1 [B64.of_Z (-1); B64.of_Z (-999)]) B64.one B64.one)
    as (_ & v' & Hv & Hlen).
  - vm_compute. reflexivity.
  - exists v'. split; [ | exact Hlen ].
    rewrite <- Hv. vm_compute. reflexivity.
Defined.
(** ** Exchanging predictions and labels *)

Lemma hits_swap (p y : list num) (k l : Z) (idx : list nat) :
  hits p y k l idx = hits y p l k idx.
Proof.
  induction idx as [ | i idx IH]; [ reflexivity | ]. cbn [hits].
  destruct (nth_error p i) as [u | ]; destruct (nth_error y i) as [v | ];
    try exact IH.
  unfold hit. rewrite (andb_comm (num_eqb u k)). now rewrite IH.
Qed.

Lemma mul_comm (a b : float) : B64.mul a b = B64.mul b a.
Proof.
  destruct a as [sa | sa | | sa ma ea]; destruct b as [sb | sb | | sb mb eb];
    try reflexivity;
    try (unfold B64.mul, SFmul; rewrite (xorb_comm sa sb); reflexivity).
  unfold B64.mul, SFmul.
  rewrite (xorb_comm sa sb), (Pos.mul_comm ma mb), (Z.add_comm ea eb).
  reflexivity.
Qed.

Lemma add_comm (a b : float) : B64.add a b = B64.add b a.
Proof.
  destruct a as [ [ | ] | [ | ] | | sa ma ea];
    destruct b as [ [ | ] | [ | ] | | sb mb eb]; try reflexivity.
  unfold B64.add, SFadd. cbv zeta.
  rewrite (Z.min_comm ea eb).
  match goal with
  | |- binary_normalize _ _ (?u + ?v) _ _ = _ => rewrite (Z.add_comm u v)
  end.
  reflexivity.
Qed.

(** X13: exchanging the two arguments of [get_confusion_matrix] (on
    lists of equal length) keeps the true positives and true negatives
    and exchanges the false positives with the false negatives.  In the
    metrics, accuracy and F1 stay the same while precision and recall
    change places. *)
Theorem confusion_matrix_swapped (p y : list num) (tp tn fp fn : Z)
  (r r' : metrics) :
  length p = length y ->
  get_confusion_matrix p y = Ok [tp; tn; fp; fn] ->
  get_confusion_matrix y p = Ok [tp; tn; fn; fp] /\
  (print_performance_metrics [tp; tn; fp; fn] = Ok r ->
   print_performance_metrics [tp; tn; fn; fp] = Ok r' ->
   accuracy r' = accuracy r /\ precision r' = recall r /\
   recall r' = precision r /\ f1 r' = f1 r).
Proof.
  intros Hlen Hm. split.
  - rewrite get_confusion_matrix_eq in *. cbv zeta in *.
    rewrite no_reads_past in * by lia.
    injection Hm as <- <- <- <-. rewrite <- Hlen.
    rewrite (hits_swap y p 1 1), (hits_swap y p 0 0),
      (hits_swap y p 1 0), (hits_swap y p 0 1).
    reflexivity.
  - unfold print_performance_metrics. cbn [get nth_error bind].
    replace (tp + tn + fn + fp) with (tp + tn + fp + fn) by ring.
    destruct (int_truediv (tp + tn) (tp + tn + fp + fn)) as [a | ];
      cbn [bind]; [ | discriminate ].
    destruct (int_truediv tp (tp + fp)) as [pr | ]; cbn [bind];
      [ | discriminate ].
    destruct (int_truediv tp (tp + fn)) as [re | ]; cbn [bind];
      [ | discriminate ].
    destruct (int_truediv tn (tn + fp)) as [sp | ]; cbn [bind];
      [ | discriminate ].
    destruct (int_truediv tn (tn + fn)) as [sp' | ]; cbn [bind];
      [ | discriminate ].
    rewrite (mul_comm re pr), (add_comm re pr).
    destruct (float_truediv (B64.mul pr re) (B64.add pr re)) as [q | ];
      cbn [bind]; [ | discriminate ].
    intros H H'. injection H as <-. injection H' as <-. cbn. auto.
Qed.

Lemma confusion_matrix_swapped_witness :
  get_confusion_matrix [Int 1; Int 0; Int 0; Int 1] [Int 1; Int 0; Int 1; Int 0]
  = Ok [1; 1; 1; 1] /\
  print_performance_metrics [1; 1; 1; 1]
  = Ok (Metrics B64.half B64.half B64.half B64.half B64.half).
Proof.
  destruct (confusion_matrix_swapped
              [Int 1; Int 0; Int 1; Int 0] [Int 1; Int 0; Int 0; Int 1]
              1 1 1 1
              (Metrics B64.half B64.half B64.half B64.half B64.half)
              (Metrics B64.half B64.half B64.half B64.half B64.half))
    as [H _].
  - reflexivity.
  - vm_compute. reflexivity.
  - split; [ exact H | vm_compute; reflexivity ].
Defined.


(** ** Edge cases of the gradient *)

(** X15: the gradient is divided by the number of examples as an array
    by a number, so a count of zero raises nothing: whenever the
    gradient is computed with [n = 0], whatever the shapes, every one of
    its entries is an infinity or NaN. *)
Theorem gradient_of_no_examples (np : numpy) (hypothesis : ndarray)
  (x : array2) (y gradient : ndarray) :
  compute_gradient_of_cost_function_multivariate np hypothesis x y 0
    = Ok gradient ->
  len gradient = length (rows x) /\
  Forall (fun g => B64.is_finite g = false) (entries gradient).
Proof.
  unfold compute_gradient_of_cost_function_multivariate.
  destruct (np_subtract hypothesis y) as [error | ]; cbn [bind];
    [ | discriminate ].
  destruct (matmul np x error) as [product | ] eqn:Hp; cbn [bind];
    [ | discriminate ].
  intros H. injection H as <-. split.
  - unfold matmul in Hp.
    destruct error as [v | m];
      match type of Hp with
      | (if ?c then _ else _) = _ => destruct c; [ | discriminate ]
      end;
      injection Hp as <-; cbn [amap len rows];
      rewrite !length_map; apply length_seq.
  - rewrite entries_amap. apply Forall_map, Forall_forall. intros v _.
    apply div_by_zero_not_finite. reflexivity.
Qed.

Lemma gradient_of_no_examples_witness :
  compute_gradient_of_cost_function_multivariate in_order (A1 [B64.one])
    (Array2 1 [[B64.zero]; [B64.one]]) (A1 [B64.zero]) 0
  = Ok (A1 [B64.nan; B64.infinity]) /\
  Forall (fun g => B64.is_finite g = false) [B64.nan; B64.infinity].
Proof.
  assert (H : compute_gradient_of_cost_function_multivariate in_order
                (A1 [B64.one]) (Array2 1 [[B64.zero]; [B64.one]])
                (A1 [B64.zero]) 0
              = Ok (A1 [B64.nan; B64.infinity])) by (vm_compute; reflexivity).
  split; [ exact H | ].
  apply (gradient_of_no_examples in_order (A1 [B64.one])
           (Array2 1 [[B64.zero]; [B64.one]]) (A1 [B64.zero])
           (A1 [B64.nan; B64.infinity]) H).
Defined.
(** ** A training set of one row *)

Lemma div_eucl_pow2 (a : Z) (k : Z) :
  0 <= k -> Z.div_eucl (a * 2 ^ k) (2 ^ k) = (a, 0).
Proof.
  intros Hk. assert (Hp : 2 ^ k <> 0) by (apply Z.pow_nonzero; lia).
  pose proof (Z.div_mul a (2 ^ k) Hp) as Hdiv.
  pose proof (Z.mod_mul a (2 ^ k) Hp) as Hmod.
  unfold Z.div in Hdiv. unfold Z.modulo in Hmod.
  destruct (Z.div_eucl (a * 2 ^ k) (2 ^ k)) as [q r]. now subst.
Qed.

(** Dividing a binary64 number by 1.0 changes nothing. *)
Lemma div_one_exact (v : float) :
  valid_binary B64.prec B64.emax v = true -> B64.div v B64.one = v.
Proof.
  destruct v as [ [ | ] | [ | ] | | s m e]; try reflexivity.
  intros Hv. unfold valid_binary, bounded, canonical_mantissa in Hv.
  apply andb_true_iff in Hv as [Hc He].
  apply Z.eqb_eq in Hc. apply Z.leb_le in He.
  change (Zpos (digits2_pos m)) with (Zdigits2 (Zpos m)) in Hc.
  change (B64.emax - B64.prec) with 971 in He.
  pose proof Hc as Hcanon.
  rewrite fexp_b64 in Hc.
  pose proof (Zdigits2_pos (Zpos m) eq_refl) as Hd1.
  unfold B64.div, B64.one, SFdiv. rewrite xorb_false_r.
  unfold SFdiv_core_binary.
  change (Zdigits2 4503599627370496) with 53.
  change IntDef.Z.min with Z.min. change IntDef.Z.shiftl with Z.shiftl.
  change IntDef.Z.div_eucl with Z.div_eucl.
  rewrite fexp_b64.
  change 4503599627370496 with (2 ^ 52).
  destruct (Z.eq_dec e (-1074)) as [-> | Hne].
  - replace (Z.min (Z.max (Zdigits2 (Zpos m) + -1074 - (53 + -52) - 53) (-1074))
               (-1074 - -52)) with (-1074) by lia.
    change (-1074 - -52 - -1074) with 52. cbv iota.
    rewrite Z.shiftl_mul_pow2 by lia.
    rewrite (div_eucl_pow2 (Zpos m) 52) by lia.
    change (new_location (2 ^ 52) 0) with loc_Exact.
    pose proof (binary_round_aux_exact s m (-1074) 0 (Z.le_refl 0) Hcanon) as E.
    rewrite Z.mul_1_r in E. exact E.
  - replace (Z.min (Z.max (Zdigits2 (Zpos m) + e - (53 + -52) - 53) (-1074))
               (e - -52)) with (e - 1) by lia.
    replace (e - -52 - (e - 1)) with 53 by lia. cbv iota.
    rewrite Z.shiftl_mul_pow2 by lia.
    replace (Zpos m * 2 ^ 53) with (Zpos m * 2 ^ 1 * 2 ^ 52)
      by (rewrite <- Z.mul_assoc; f_equal).
    rewrite (div_eucl_pow2 (Zpos m * 2 ^ 1) 52) by lia.
    change (new_location (2 ^ 52) 0) with loc_Exact.
    pose proof (binary_round_aux_exact s m e 1 ltac:(lia) Hcanon) as E.
    destruct (Z.leb_spec e 971); [ exact E | lia ].
Qed.

Lemma sub_self_exact (v : float) :
  B64.is_finite v = true -> B64.sub v v = B64.zero.
Proof.
  destruct v as [ [ | ] | | | s m e]; try discriminate; try reflexivity.
  intros _. unfold B64.sub, SFsub. rewrite Z.sub_diag. reflexivity.
Qed.

(** The deviation of a value from itself, scaled by the root of its
    mean square. *)
Lemma single_value_scaled (v : float) :
  B64.div (B64.sub v v)
    (B64.sqrt
       (B64.div (B64.mul (B64.sub v v) (B64.sub v v)) (B64.of_Z 1)))
  = B64.nan /\
  (B64.is_finite v = true ->
   B64.sqrt (B64.div (B64.mul (B64.sub v v) (B64.sub v v)) (B64.of_Z 1))
   = B64.zero).
Proof.
  destruct (B64.is_finite v) eqn:Hfin.
  - rewrite (sub_self_exact v Hfin). split; [ | intros _ ]; reflexivity.
  - split; [ | discriminate ].
    destruct v as [ [ | ] | [ | ] | | s m e]; try discriminate; reflexivity.
Qed.

Lemma nth_map_seq {B : Type} (f : nat -> B) (n j : nat) (d : B) :
  (j < n)%nat -> nth j (map f (seq 0 n)) d = f j.
Proof.
  intros Hj. rewrite (nth_indep _ d (f O)) by (now rewrite length_map, length_seq).
  rewrite (map_nth f (seq 0 n) O j). now rewrite seq_nth.
Qed.

(** X16: a training set of one row cannot be standardised.  The sum of
    a column of one entry being that entry, the mean of every column is
    the value itself, the standard deviation of every column with a
    finite value is 0.0, and [fit_transform] returns, without any error,
    a row in which every entry is NaN. *)
Theorem fit_transform_single_row (np : numpy) (row : vector) :
  (forall (r : vector) (j : nat),
     (j < length r)%nat -> sum_axis0 np [r] j = nth j r B64.nan) ->
  Forall (fun v => valid_binary B64.prec B64.emax v = true) row ->
  exists std,
    fit_transform np [row]
      = Ok (Fitted [map (fun _ => B64.nan) row] row std) /\
    length std = length row /\
    (forall j v,
       nth_error row j = Some v -> B64.is_finite v = true ->
       nth_error std j = Some B64.zero).
Proof.
  intros Hsum Hvalid.
  assert (Hrect : rectangular [row] = true).
  { unfold rectangular. cbn [forallb ncols]. now rewrite Nat.eqb_refl. }
  assert (Hmean : mean_axis0 np [row] = row).
  { unfold mean_axis0. cbn [ncols length].
    transitivity (map (fun j => nth j row B64.nan) (seq 0 (length row)));
      [ | apply map_nth_id ].
    apply map_ext_in. intros j Hj. apply in_seq in Hj.
    rewrite Hsum by lia. apply div_one_exact.
    rewrite Forall_forall in Hvalid. apply Hvalid, nth_In. lia. }
  assert (Hstd : forall j, (j < length row)%nat ->
            nth j (std_axis0 np [row]) B64.nan
            = B64.sqrt
                (B64.div
                   (B64.mul
                      (B64.sub (nth j row B64.nan) (nth j row B64.nan))
                      (B64.sub (nth j row B64.nan) (nth j row B64.nan)))
                   (B64.of_Z 1))).
  { intros j Hj. unfold std_axis0. cbv zeta. rewrite Hmean.
    cbn [ncols length map].
    rewrite (nth_map_seq _ (length row) j B64.nan Hj).
    rewrite Hsum by (now rewrite !length_map, length_seq).
    rewrite map_map. rewrite (nth_map_seq _ (length row) j B64.nan Hj).
    reflexivity. }
  exists (std_axis0 np [row]).
  rewrite (fit_transform_rectangular np [row]) by (discriminate || exact Hrect).
  rewrite Hmean. split; [ | split ].
  - f_equal. f_equal. cbn [map ncols]. f_equal.
    transitivity (map (fun j => (fun _ : float => B64.nan) (nth j row B64.nan))
                    (range (length row)));
      [ | exact (map_nth_range (fun _ : float => B64.nan) row B64.nan) ].
    apply map_ext_in. intros j Hj. apply in_seq in Hj.
    rewrite Hstd by lia. unfold scaled_entry.
    apply (single_value_scaled (nth j row B64.nan)).
  - unfold std_axis0. cbv zeta. cbn [ncols]. now rewrite length_map, length_seq.
  - intros j v Hj Hfin.
    assert (Hlt : (j < length row)%nat) by (apply nth_error_Some; congruence).
    assert (Hlen : length (std_axis0 np [row]) = length row).
    { unfold std_axis0. cbv zeta. cbn [ncols].
      now rewrite length_map, length_seq. }
    assert (Hlt' : (j < length (std_axis0 np [row]))%nat) by list_lia.
    transitivity (Some (nth j (std_axis0 np [row]) B64.nan));
      [ apply nth_error_nth'; exact Hlt' | ].
    rewrite (Hstd j Hlt). f_equal.
    rewrite (nth_error_nth row j B64.nan Hj).
    apply (single_value_scaled v), Hfin.
Qed.

Lemma fit_transform_single_row_witness :
  exists std,
    fit_transform in_order [[B64.one; B64.half]]
    = Ok (Fitted [[B64.nan; B64.nan]] [B64.one; B64.half] std) /\
    nth_error std 1 = Some B64.zero.
Proof.
  destruct (fit_transform_single_row in_order [B64.one; B64.half])
    as (std & H & _ & Hz).
  - intros r j Hj. reflexivity.
  - repeat constructor.
  - exists std. split; [ exact H | ].
    apply (Hz 1%nat B64.half); reflexivity.
Defined.
